(** * ReactNativeBiometrics: the biometric credential lifecycle

    A shallow embedding of the TypeScript sources

      - [src/utils/BiometricErrorHandler.ts]
      - [src/services/BiometricAuthService.ts]
      - [src/utils/UserPreferences.ts]
      - [src/hooks/useBiometricAuth.ts]
      - [src/contexts/AuthContext.tsx]
      - [src/screens/LoginScreen.tsx] (the automatic attempt)

    Asynchronous functions are computations in a state-and-exception monad
    over a [World]: the keychain slot, the preference storage, the React
    state of the provider and of the hook, the behaviour of the device, and
    the trace of the calls made to the outside.  An [await] is sequencing;
    a rejected promise is a thrown value. *)

From Stdlib Require Import String Ascii List Bool Arith Lia.
From stdpp Require Import base option strings gmap.

Import ListNotations.

(** ** JavaScript strings and values *)

(** Strings are sequences of bytes (the UTF-8 text of the source).  Case
    folding is that of the ASCII letters, the alphabet of the keywords the
    program looks for; every other byte is kept as it is. *)

Definition toLowerCaseChar (c : ascii) : ascii :=
  let n := nat_of_ascii c in
  if (65 <=? n)%nat && (n <=? 90)%nat then ascii_of_nat (n + 32) else c.

Fixpoint toLowerCase (s : string) : string :=
  match s with
  | EmptyString => EmptyString
  | String c s' => String (toLowerCaseChar c) (toLowerCase s')
  end.

(** [startsWith s t]: [s.startsWith(t)]. *)
Fixpoint startsWith (s t : string) {struct t} : bool :=
  match t, s with
  | EmptyString, _ => true
  | String _ _, EmptyString => false
  | String b t', String a s' => Ascii.eqb a b && startsWith s' t'
  end.

(** [includes s t]: [s.includes(t)], a search for [t] at every position. *)
Fixpoint includes (s t : string) : bool :=
  startsWith s t ||
  match s with
  | EmptyString => false
  | String _ s' => includes s' t
  end.

(** The values a promise is rejected with, or a [catch] clause receives. *)
Inductive JsValue : Type :=
| JsUndefined
| JsNull
| JsString (s : string)
| JsObject (message : option string) (str : string).
    (* an object: its [message] property when it has one, and what its
       [toString()] gives *)

(** A string is truthy when it is not empty. *)
Definition truthy (s : string) : bool := negb (String.eqb s "").

(** [a || b] where [a] is a string or [undefined] and [b] a string. *)
Definition orString (a : option string) (b : string) : string :=
  match a with
  | Some s => if truthy s then s else b
  | None => b
  end.

(** [v?.message] *)
Definition optMessage (v : JsValue) : option string :=
  match v with
  | JsObject message _ => message
  | _ => None
  end.

(** [v?.toString()] *)
Definition optToString (v : JsValue) : option string :=
  match v with
  | JsUndefined | JsNull => None
  | JsString s => Some s
  | JsObject _ str => Some str
  end.

(** [`${v}`] *)
Definition ToString (v : JsValue) : string :=
  match v with
  | JsUndefined => "undefined"
  | JsNull => "null"
  | JsString s => s
  | JsObject _ str => str
  end.

(** What reading [v.message] throws when [v] is [null] or [undefined]. *)
Definition TypeError (v : JsValue) : JsValue :=
  let text := "Cannot read properties of " +:+ ToString v +:+ " (reading 'message')" in
  JsObject (Some text) ("TypeError: " +:+ text).

(** [react-native-keychain]'s [BIOMETRY_TYPE]. *)
Inductive BIOMETRY_TYPE : Type :=
| TOUCH_ID | FACE_ID | OPTIC_ID | FINGERPRINT | FACE | IRIS.

(** Buttons of a dialog; a callback is known by its identity. *)
Definition Callback : Type := nat.

Record AlertButton : Type := mkButton {
  text : string;
  onPress : option Callback;
  style : option string
}.

(** ** The interfaces of the sources *)

Module StoredCredentials.
Record t : Type := mk { username : string; password : string }.
End StoredCredentials.

(** [BiometricAuthResult], and [BiometricAuthResult & { credentials?:
    StoredCredentials }]: the same shape, every property but [success]
    optional. *)
Module BiometricAuthResult.
Record t : Type := mk {
  success : bool;
  error : option string;
  cancelled : option bool;
  credentials : option StoredCredentials.t
}.
End BiometricAuthResult.

Module BiometricCapabilities.
Record t : Type := mk {
  isAvailable : bool;
  biometryType : option BIOMETRY_TYPE;
  error : option string
}.
End BiometricCapabilities.

Module User.
Record t : Type := mk { id : string; username : string; email : string }.
End User.

(** The [useState] cells of [useBiometricAuth]. *)
Module HookState.
Record t : Type := mk {
  isAvailable : bool;
  biometryType : option BIOMETRY_TYPE;
  isLoading : bool;
  hasStoredCredentials : bool;
  isInitialized : bool
}.
(** The initial values of the cells. *)
Definition initial : t :=
  {| isAvailable := false; biometryType := None; isLoading := true;
     hasStoredCredentials := false; isInitialized := false |}.
Definition with_isAvailable (b : bool) (s : t) : t :=
  mk b (biometryType s) (isLoading s) (hasStoredCredentials s) (isInitialized s).
Definition with_biometryType (v : option BIOMETRY_TYPE) (s : t) : t :=
  mk (isAvailable s) v (isLoading s) (hasStoredCredentials s) (isInitialized s).
Definition with_isLoading (b : bool) (s : t) : t :=
  mk (isAvailable s) (biometryType s) b (hasStoredCredentials s) (isInitialized s).
Definition with_hasStoredCredentials (b : bool) (s : t) : t :=
  mk (isAvailable s) (biometryType s) (isLoading s) b (isInitialized s).
Definition with_isInitialized (b : bool) (s : t) : t :=
  mk (isAvailable s) (biometryType s) (isLoading s) (hasStoredCredentials s) b.
End HookState.

(** ** The world *)

Inductive Outcome (A : Type) : Type :=
| Returns (a : A)
| Throws (e : JsValue).
Arguments Returns {A} a.
Arguments Throws {A} e.

(** What the device does when it is asked: the part of the world the
    program does not control.  One run of an operation of the program calls
    each of these at most once. *)
Record Device : Type := mkDevice {
  supportedBiometryType : Outcome (option BIOMETRY_TYPE);
  setGenericPasswordFault : option JsValue;
  getGenericPasswordFault : option JsValue; (* a failed or cancelled challenge *)
  hasGenericPasswordFault : option JsValue;
  resetGenericPasswordResult : Outcome bool;
  getAllKeysFault : option JsValue;
  multiRemoveFault : option JsValue
}.

Inductive StateUpdate : Type :=
| setUser (u : option User.t)
| setIsLoading (b : bool)
| setIsAvailable (b : bool)
| setBiometryType (t : option BIOMETRY_TYPE)
| setBiometricIsLoading (b : bool)
| setHasStoredCredentials (b : bool)
| setIsInitialized (b : bool).

(** The calls to the outside, in the order they are made. *)
Inductive Event : Type :=
| Keychain_getSupportedBiometryType
| Keychain_setGenericPassword (username password : string)
| Keychain_getGenericPassword
| Keychain_hasGenericPassword
| Keychain_resetGenericPassword
| AsyncStorage_getAllKeys
| AsyncStorage_multiRemove (keys : list string)
| Alert_alert (title message : string) (buttons : list AlertButton)
| Timeout (ms : nat)
| React (u : StateUpdate).

Record World : Type := mkWorld {
  device : Device;
  keychain : option StoredCredentials.t; (* the entry of SERVICE_NAME *)
  asyncStorage : gmap string string;
  user : option User.t;                  (* AuthProvider *)
  isLoading : bool;                      (* AuthProvider *)
  bio : HookState.t;                     (* useBiometricAuth *)
  trace : list Event
}.

Definition with_keychain (k : option StoredCredentials.t) (w : World) : World :=
  {| device := device w; keychain := k; asyncStorage := asyncStorage w;
     user := user w; isLoading := isLoading w; bio := bio w; trace := trace w |}.

Definition with_asyncStorage (m : gmap string string) (w : World) : World :=
  {| device := device w; keychain := keychain w; asyncStorage := m;
     user := user w; isLoading := isLoading w; bio := bio w; trace := trace w |}.

Definition with_user (u : option User.t) (w : World) : World :=
  {| device := device w; keychain := keychain w; asyncStorage := asyncStorage w;
     user := u; isLoading := isLoading w; bio := bio w; trace := trace w |}.

Definition with_isLoading (b : bool) (w : World) : World :=
  {| device := device w; keychain := keychain w; asyncStorage := asyncStorage w;
     user := user w; isLoading := b; bio := bio w; trace := trace w |}.

Definition with_bio (h : HookState.t) (w : World) : World :=
  {| device := device w; keychain := keychain w; asyncStorage := asyncStorage w;
     user := user w; isLoading := isLoading w; bio := h; trace := trace w |}.

Definition with_trace (t : list Event) (w : World) : World :=
  {| device := device w; keychain := keychain w; asyncStorage := asyncStorage w;
     user := user w; isLoading := isLoading w; bio := bio w; trace := t |}.

(** ** The monad of asynchronous functions *)

Definition M (A : Type) : Type := World -> Outcome A * World.

Definition ret {A} (a : A) : M A := fun w => (Returns a, w).

Definition bind {A B} (m : M A) (k : A -> M B) : M B :=
  fun w =>
    match m w with
    | (Returns a, w') => k a w'
    | (Throws e, w') => (Throws e, w')
    end.

Definition throw {A} (e : JsValue) : M A := fun w => (Throws e, w).

(** [try { body } catch (error) { handler }] *)
Definition tryCatch {A} (body : M A) (handler : JsValue -> M A) : M A :=
  fun w =>
    match body w with
    | (Returns a, w') => (Returns a, w')
    | (Throws e, w') => handler e w'
    end.

(** [try { body } finally { final }] *)
Definition tryFinally {A} (body : M A) (final : M unit) : M A :=
  fun w =>
    match body w with
    | (o, w') =>
        match final w' with
        | (Returns _, w'') => (o, w'')
        | (Throws e, w'') => (Throws e, w'')
        end
    end.

Declare Scope js_scope.
Delimit Scope js_scope with js.
Notation "x <- m ;; k" := (bind m (fun x => k))
  (at level 20, m at level 99, k at level 200, only parsing) : js_scope.
Notation "m ;; k" := (bind m (fun _ => k))
  (at level 100, k at level 200, only parsing, right associativity) : js_scope.
Local Open Scope js_scope.

Definition emit (e : Event) : M unit :=
  fun w => (Returns tt, with_trace (trace w ++ [e]) w).

(** [e.message] in a [catch] clause: a [TypeError] on [null] and
    [undefined], [undefined] on a string. *)
Definition getMessage (e : JsValue) : M (option string) :=
  match e with
  | JsUndefined | JsNull => throw (TypeError e)
  | JsString _ => ret None
  | JsObject message _ => ret message
  end.

(** [`${e.message || e}`] *)
Definition messageOrSelf (e : JsValue) : M string :=
  m <- getMessage e ;;
  ret (orString m (ToString e)).

(** [e.message && e.message.includes('cancel')] as a condition. *)
Definition messageIncludesCancel (e : JsValue) : M bool :=
  m <- getMessage e ;;
  ret match m with
      | Some s => truthy s && includes s "cancel"
      | None => false
      end.

(** React state: an update is written to the cell and recorded. *)
Definition update (u : StateUpdate) : M unit :=
  emit (React u) ;;
  fun w =>
    (Returns tt,
     match u with
     | setUser v => with_user v w
     | setIsLoading b => with_isLoading b w
     | setIsAvailable b => with_bio (HookState.with_isAvailable b (bio w)) w
     | setBiometryType t => with_bio (HookState.with_biometryType t (bio w)) w
     | setBiometricIsLoading b => with_bio (HookState.with_isLoading b (bio w)) w
     | setHasStoredCredentials b =>
         with_bio (HookState.with_hasStoredCredentials b (bio w)) w
     | setIsInitialized b => with_bio (HookState.with_isInitialized b (bio w)) w
     end).

(** ** The outside: react-native-keychain, AsyncStorage, Alert, timers

    The keychain holds one entry for the service of the program.  A write
    that is not rejected stores the pair; a read whose challenge is not
    rejected gives the entry back, or [false] (here [None]) when there is
    none; a rejected call leaves the entry as it is. *)

Module Keychain.

Definition getSupportedBiometryType : M (option BIOMETRY_TYPE) :=
  emit Keychain_getSupportedBiometryType ;;
  fun w => (supportedBiometryType (device w), w).

Definition setGenericPassword (username password : string) : M unit :=
  emit (Keychain_setGenericPassword username password) ;;
  fun w =>
    match setGenericPasswordFault (device w) with
    | Some e => (Throws e, w)
    | None => (Returns tt, with_keychain (Some (StoredCredentials.mk username password)) w)
    end.

Definition getGenericPassword : M (option StoredCredentials.t) :=
  emit Keychain_getGenericPassword ;;
  fun w =>
    match getGenericPasswordFault (device w) with
    | Some e => (Throws e, w)
    | None => (Returns (keychain w), w)
    end.

Definition hasGenericPassword : M bool :=
  emit Keychain_hasGenericPassword ;;
  fun w =>
    match hasGenericPasswordFault (device w) with
    | Some e => (Throws e, w)
    | None => (Returns (match keychain w with Some _ => true | None => false end), w)
    end.

Definition resetGenericPassword : M bool :=
  emit Keychain_resetGenericPassword ;;
  fun w =>
    match resetGenericPasswordResult (device w) with
    | Returns true => (Returns true, with_keychain None w)
    | Returns false => (Returns false, w)
    | Throws e => (Throws e, w)
    end.

End Keychain.

Module AsyncStorage.

Definition getAllKeys : M (list string) :=
  emit AsyncStorage_getAllKeys ;;
  fun w =>
    match getAllKeysFault (device w) with
    | Some e => (Throws e, w)
    | None => (Returns (elements (dom (asyncStorage w))), w)
    end.

Definition multiRemove (keys : list string) : M unit :=
  emit (AsyncStorage_multiRemove keys) ;;
  fun w =>
    match multiRemoveFault (device w) with
    | Some e => (Throws e, w)
    | None => (Returns tt, with_asyncStorage (foldr delete (asyncStorage w) keys) w)
    end.

(** The calls on one item.  Which of them the storage rejects, and with
    what, is a parameter; the trace does not record them. *)
Record ItemFaults : Type := mkItemFaults {
  getItemFault : option JsValue;
  setItemFault : option JsValue;
  removeItemFault : option JsValue
}.

Definition getItem (faults : ItemFaults) (key : string) : M (option string) :=
  fun w =>
    match getItemFault faults with
    | Some e => (Throws e, w)
    | None => (Returns (asyncStorage w !! key), w)
    end.

Definition setItem (faults : ItemFaults) (key value : string) : M unit :=
  fun w =>
    match setItemFault faults with
    | Some e => (Throws e, w)
    | None => (Returns tt, with_asyncStorage (<[key := value]> (asyncStorage w)) w)
    end.

Definition removeItem (faults : ItemFaults) (key : string) : M unit :=
  fun w =>
    match removeItemFault faults with
    | Some e => (Throws e, w)
    | None => (Returns tt, with_asyncStorage (delete key (asyncStorage w)) w)
    end.

End AsyncStorage.

Module Alert.
Definition alert (title message : string) (buttons : list AlertButton) : M unit :=
  emit (Alert_alert title message buttons).
End Alert.

(** [await new Promise(resolve => setTimeout(resolve, ms))] *)
Definition sleep (ms : nat) : M unit := emit (Timeout ms).

(** ** BiometricErrorHandler.ts *)
Module BiometricErrorHandler.

Record BiometricError : Type := mkBiometricError {
  code : string;
  message : string;
  userMessage : string;
  recoverable : bool
}.

(** [error?.message || error?.toString() || 'Unknown error'] *)
Definition errorMessageOf (error : JsValue) : string :=
  orString (optMessage error) (orString (optToString error) "Unknown error").

Definition parseError (error : JsValue) : BiometricError :=
  let errorMessage := errorMessageOf error in
  let lowerMessage := toLowerCase errorMessage in
  if includes lowerMessage "cancel" || includes lowerMessage "user cancel" then
    {| code := "USER_CANCELLED";
       message := errorMessage;
       userMessage := "Xác thực đã bị hủy.";
       recoverable := true |}
  else if includes lowerMessage "not available" || includes lowerMessage "not supported" then
    {| code := "NOT_AVAILABLE";
       message := errorMessage;
       userMessage := "Đăng nhập sinh trắc học không khả dụng trên thiết bị này.";
       recoverable := false |}
  else if includes lowerMessage "not enrolled" || includes lowerMessage "no biometric" then
    {| code := "NOT_ENROLLED";
       message := errorMessage;
       userMessage := "Chưa thiết lập đăng nhập sinh trắc học trên thiết bị này. Vui lòng thiết lập trong cài đặt thiết bị.";
       recoverable := false |}
  else if includes lowerMessage "authentication failed" || includes lowerMessage "failed" then
    {| code := "AUTH_FAILED";
       message := errorMessage;
       userMessage := "Đăng nhập sinh trắc học thất bại. Vui lòng thử lại.";
       recoverable := true |}
  else if includes lowerMessage "too many" || includes lowerMessage "lockout" then
    {| code := "LOCKOUT";
       message := errorMessage;
       userMessage := "Quá nhiều lần thử thất bại. Vui lòng thử lại sau hoặc sử dụng mật khẩu thiết bị.";
       recoverable := false |}
  else if includes lowerMessage "hardware" || includes lowerMessage "sensor" then
    {| code := "HARDWARE_ERROR";
       message := errorMessage;
       userMessage := "Cảm biến sinh trắc học không khả dụng. Vui lòng thử lại sau.";
       recoverable := true |}
  else if includes lowerMessage "system" || includes lowerMessage "internal" then
    {| code := "SYSTEM_ERROR";
       message := errorMessage;
       userMessage := "Đã xảy ra lỗi hệ thống. Vui lòng thử lại.";
       recoverable := true |}
  else
    {| code := "UNKNOWN_ERROR";
       message := errorMessage;
       userMessage := "Đã xảy ra lỗi không mong muốn trong quá trình xác thực sinh trắc học.";
       recoverable := true |}.

Definition getBiometricTypeName (biometryType : option BIOMETRY_TYPE) : string :=
  "Đăng nhập sinh trắc học".

Definition showErrorDialog (error : BiometricError)
    (biometricType : option BIOMETRY_TYPE)
    (onRetry onFallback : option Callback) : M unit :=
  let biometricName := getBiometricTypeName biometricType in
  let title := "Lỗi xác thực" in
  let message := userMessage error in
  if String.eqb (code error) "USER_CANCELLED" then
    (* Don't show dialog for user cancellation *)
    ret tt
  else
    let title :=
      if String.eqb (code error) "NOT_AVAILABLE" then "Sinh trắc học không khả dụng"
      else if String.eqb (code error) "NOT_ENROLLED" then "Chưa thiết lập sinh trắc học"
      else if String.eqb (code error) "AUTH_FAILED" then "Đăng nhập sinh trắc học thất bại"
      else if String.eqb (code error) "LOCKOUT" then "Quá nhiều lần thử"
      else if String.eqb (code error) "HARDWARE_ERROR" then "Lỗi cảm biến"
      else if String.eqb (code error) "SYSTEM_ERROR" then "Lỗi hệ thống"
      else title in
    let buttons : list AlertButton := [] in
    let buttons :=
      match onFallback with
      | Some _ => buttons ++ [ {| text := "Dùng mật khẩu"; onPress := onFallback; style := None |} ]
      | None => buttons
      end in
    let buttons :=
      match recoverable error, onRetry with
      | true, Some _ => buttons ++ [ {| text := "Thử lại"; onPress := onRetry; style := None |} ]
      | _, _ => buttons
      end in
    let buttons :=
      buttons ++ [ {| text := if (0 <? length buttons)%nat then "Hủy" else "OK";
                      onPress := None;
                      style := Some "cancel" |} ] in
    Alert.alert title message buttons.

End BiometricErrorHandler.

(** ** BiometricAuthService.ts *)
Module BiometricAuthService.

Definition SERVICE_NAME : string := "ReactNativeBiometricsApp".

Definition getBiometricCapabilities : M BiometricCapabilities.t :=
  tryCatch
    (biometryType <- Keychain.getSupportedBiometryType ;;
     match biometryType with
     | Some _ =>
         ret {| BiometricCapabilities.isAvailable := true;
                BiometricCapabilities.biometryType := biometryType;
                BiometricCapabilities.error := None |}
     | None =>
         ret {| BiometricCapabilities.isAvailable := false;
                BiometricCapabilities.biometryType := None;
                BiometricCapabilities.error :=
                  Some "Biometric authentication is not available on this device" |}
     end)
    (fun error =>
       ret {| BiometricCapabilities.isAvailable := false;
              BiometricCapabilities.biometryType := None;
              BiometricCapabilities.error :=
                Some ("Error checking biometric capabilities: " +:+ ToString error) |}).

(** The two results every [catch] clause of the service builds. *)
Definition cancelledResult : BiometricAuthResult.t :=
  {| BiometricAuthResult.success := false;
     BiometricAuthResult.cancelled := Some true;
     BiometricAuthResult.error := Some "Authentication was cancelled by user";
     BiometricAuthResult.credentials := None |}.

Definition failure (error : string) : BiometricAuthResult.t :=
  {| BiometricAuthResult.success := false;
     BiometricAuthResult.error := Some error;
     BiometricAuthResult.cancelled := None;
     BiometricAuthResult.credentials := None |}.

Definition storeCredentials (username password : string) : M BiometricAuthResult.t :=
  tryCatch
    (capabilities <- getBiometricCapabilities ;;
     if negb (BiometricCapabilities.isAvailable capabilities) then
       ret (failure "Biometric authentication is not available")
     else
       Keychain.setGenericPassword username password ;;
       ret {| BiometricAuthResult.success := true;
              BiometricAuthResult.error := None;
              BiometricAuthResult.cancelled := None;
              BiometricAuthResult.credentials := None |})
    (fun error =>
       (* Handle user cancellation *)
       isCancel <- messageIncludesCancel error ;;
       if isCancel then ret cancelledResult
       else
         m <- messageOrSelf error ;;
         ret (failure ("Failed to store credentials: " +:+ m))).

Definition getStoredCredentials : M BiometricAuthResult.t :=
  tryCatch
    (capabilities <- getBiometricCapabilities ;;
     if negb (BiometricCapabilities.isAvailable capabilities) then
       ret (failure "Biometric authentication is not available")
     else
       result <- Keychain.getGenericPassword ;;
       match result with
       | Some found =>
           ret {| BiometricAuthResult.success := true;
                  BiometricAuthResult.credentials :=
                    Some {| StoredCredentials.username := StoredCredentials.username found;
                            StoredCredentials.password := StoredCredentials.password found |};
                  BiometricAuthResult.error := None;
                  BiometricAuthResult.cancelled := None |}
       | None => ret (failure "No stored credentials found")
       end)
    (fun error =>
       (* Handle user cancellation *)
       isCancel <- messageIncludesCancel error ;;
       if isCancel then ret cancelledResult
       else
         m <- messageOrSelf error ;;
         ret (failure ("Failed to retrieve credentials: " +:+ m))).

Definition hasStoredCredentials : M bool :=
  tryCatch
    (result <- Keychain.hasGenericPassword ;;
     ret result)
    (fun error => ret false).

Definition removeStoredCredentials : M BiometricAuthResult.t :=
  tryCatch
    (success <- Keychain.resetGenericPassword ;;
     ret {| BiometricAuthResult.success := success;
            BiometricAuthResult.error :=
              if success then None else Some "Failed to remove stored credentials";
            BiometricAuthResult.cancelled := None;
            BiometricAuthResult.credentials := None |})
    (fun error =>
       m <- messageOrSelf error ;;
       ret (failure ("Failed to remove credentials: " +:+ m))).

Definition getBiometricTypeDescription (biometryType : option BIOMETRY_TYPE) : string :=
  match biometryType with
  | Some TOUCH_ID => "Touch ID"
  | Some FACE_ID => "Face ID"
  | Some FINGERPRINT => "Fingerprint"
  | Some FACE => "Face Recognition"
  | Some IRIS => "Iris Recognition"
  | _ => "Biometric Authentication"
  end.

End BiometricAuthService.

(** ** UserPreferences.ts *)
Module UserPreferences.

Definition clearAllAppData : M unit :=
  tryCatch
    (allKeys <- AsyncStorage.getAllKeys ;;
     if (0 <? length allKeys)%nat then AsyncStorage.multiRemove allKeys
     else ret tt)
    (fun error => ret tt).

Definition KEYS_BIOMETRIC_PROMPT_SHOWN : string := "biometric_prompt_shown".
Definition KEYS_LAST_USERNAME : string := "last_username".
Definition KEYS_BIOMETRIC_PROMPT_DISMISSED : string := "biometric_prompt_dismissed".

Section Items.

Variable faults : AsyncStorage.ItemFaults.

Definition hasBiometricPromptBeenShown : M bool :=
  tryCatch
    (value <- AsyncStorage.getItem faults KEYS_BIOMETRIC_PROMPT_SHOWN ;;
     ret match value with
         | Some v => String.eqb v "true"
         | None => false
         end)
    (fun error => ret false).

Definition setBiometricPromptShown : M unit :=
  tryCatch
    (AsyncStorage.setItem faults KEYS_BIOMETRIC_PROMPT_SHOWN "true")
    (fun error => ret tt).

Definition hasBiometricPromptBeenDismissed : M bool :=
  tryCatch
    (value <- AsyncStorage.getItem faults KEYS_BIOMETRIC_PROMPT_DISMISSED ;;
     ret match value with
         | Some v => String.eqb v "true"
         | None => false
         end)
    (fun error => ret false).

Definition setBiometricPromptDismissed : M unit :=
  tryCatch
    (AsyncStorage.setItem faults KEYS_BIOMETRIC_PROMPT_DISMISSED "true")
    (fun error => ret tt).

Definition clearBiometricPromptDismissed : M unit :=
  tryCatch
    (AsyncStorage.removeItem faults KEYS_BIOMETRIC_PROMPT_DISMISSED)
    (fun error => ret tt).

Definition saveLastUsername (username : string) : M unit :=
  tryCatch
    (AsyncStorage.setItem faults KEYS_LAST_USERNAME username)
    (fun error => ret tt).

Definition getLastUsername : M (option string) :=
  tryCatch
    (AsyncStorage.getItem faults KEYS_LAST_USERNAME)
    (fun error => ret None).

Definition clearLastUsername : M unit :=
  tryCatch
    (AsyncStorage.removeItem faults KEYS_LAST_USERNAME)
    (fun error => ret tt).

End Items.

Definition clearAll : M unit :=
  tryCatch
    (AsyncStorage.multiRemove
       [KEYS_BIOMETRIC_PROMPT_SHOWN; KEYS_LAST_USERNAME; KEYS_BIOMETRIC_PROMPT_DISMISSED])
    (fun error => ret tt).

Definition resetBiometricPreferences : M unit :=
  tryCatch
    (AsyncStorage.multiRemove
       [KEYS_BIOMETRIC_PROMPT_SHOWN; KEYS_BIOMETRIC_PROMPT_DISMISSED])
    (fun error => ret tt).

End UserPreferences.


(** ** useBiometricAuth.ts *)

(** What the hook hands to the component that calls it.  [showError] is
    left out: it only forwards to an alert. *)
Module UseBiometricAuthReturn.
Record t : Type := mk {
  isAvailable : bool;
  biometryType : option BIOMETRY_TYPE;
  biometricTypeDescription : string;
  isLoading : bool;
  hasStoredCredentials : bool;
  checkCapabilities : M unit;
  storeCredentials : string -> string -> M BiometricAuthResult.t;
  authenticateWithBiometrics : M BiometricAuthResult.t;
  removeStoredCredentials : M BiometricAuthResult.t;
  checkStoredCredentials : M unit
}.
End UseBiometricAuthReturn.

Module useBiometricAuth.

Section Render.

(** The values one render reads from the cells; the callbacks built during
    that render see these values, whatever is written to the cells later. *)
Variable s : HookState.t.

Definition checkCapabilities : M unit :=
  if HookState.isLoading s then ret tt (* Prevent multiple simultaneous calls *)
  else
    update (setBiometricIsLoading true) ;;
    tryFinally
      (tryCatch
         (capabilities <- BiometricAuthService.getBiometricCapabilities ;;
          update (setIsAvailable (BiometricCapabilities.isAvailable capabilities)) ;;
          update (setBiometryType (BiometricCapabilities.biometryType capabilities)))
         (fun error =>
            update (setIsAvailable false) ;;
            update (setBiometryType None)))
      (update (setBiometricIsLoading false)).

Definition checkStoredCredentials : M unit :=
  tryCatch
    (hasCredentials <- BiometricAuthService.hasStoredCredentials ;;
     update (setHasStoredCredentials hasCredentials))
    (fun error => update (setHasStoredCredentials false)).

Definition storeCredentials (username password : string) : M BiometricAuthResult.t :=
  if negb (HookState.isAvailable s) then
    ret (BiometricAuthService.failure
           "Biometric authentication is not available on this device")
  else
    tryCatch
      (result <- BiometricAuthService.storeCredentials username password ;;
       (if BiometricAuthResult.success result then
          (* Update stored credentials state directly *)
          hasCredentials <- BiometricAuthService.hasStoredCredentials ;;
          update (setHasStoredCredentials hasCredentials)
        else ret tt) ;;
       ret result)
      (fun error =>
         m <- messageOrSelf error ;;
         ret (BiometricAuthService.failure ("Failed to store credentials: " +:+ m))).

Definition authenticateWithBiometrics : M BiometricAuthResult.t :=
  if negb (HookState.isAvailable s) then
    ret (BiometricAuthService.failure
           "Biometric authentication is not available on this device")
  else if negb (HookState.hasStoredCredentials s) then
    ret (BiometricAuthService.failure
           "No stored credentials found. Please login with username and password first.")
  else
    tryCatch
      (result <- BiometricAuthService.getStoredCredentials ;;
       ret result)
      (fun error =>
         m <- messageOrSelf error ;;
         ret (BiometricAuthService.failure ("Biometric authentication failed: " +:+ m))).

Definition removeStoredCredentials : M BiometricAuthResult.t :=
  tryCatch
    (result <- BiometricAuthService.removeStoredCredentials ;;
     (if BiometricAuthResult.success result then
        (* Update stored credentials state directly *)
        update (setHasStoredCredentials false)
      else ret tt) ;;
     ret result)
    (fun error =>
       m <- messageOrSelf error ;;
       ret (BiometricAuthService.failure ("Failed to remove credentials: " +:+ m))).

(** The effect that runs on mount, [initialize()] behind its guard. *)
Definition initialize : M unit :=
  if HookState.isInitialized s then ret tt
  else
    update (setBiometricIsLoading true) ;;
    tryFinally
      (tryCatch
         (capabilities <- BiometricAuthService.getBiometricCapabilities ;;
          update (setIsAvailable (BiometricCapabilities.isAvailable capabilities)) ;;
          update (setBiometryType (BiometricCapabilities.biometryType capabilities)) ;;
          hasCredentials <- BiometricAuthService.hasStoredCredentials ;;
          update (setHasStoredCredentials hasCredentials))
         (fun error =>
            update (setIsAvailable false) ;;
            update (setBiometryType None) ;;
            update (setHasStoredCredentials false)))
      (update (setBiometricIsLoading false) ;;
       update (setIsInitialized true)).

Definition useBiometricAuth : UseBiometricAuthReturn.t :=
  {| UseBiometricAuthReturn.isAvailable := HookState.isAvailable s;
     UseBiometricAuthReturn.biometryType := HookState.biometryType s;
     UseBiometricAuthReturn.biometricTypeDescription :=
       BiometricAuthService.getBiometricTypeDescription (HookState.biometryType s);
     UseBiometricAuthReturn.isLoading := HookState.isLoading s;
     UseBiometricAuthReturn.hasStoredCredentials := HookState.hasStoredCredentials s;
     UseBiometricAuthReturn.checkCapabilities := checkCapabilities;
     UseBiometricAuthReturn.storeCredentials := storeCredentials;
     UseBiometricAuthReturn.authenticateWithBiometrics := authenticateWithBiometrics;
     UseBiometricAuthReturn.removeStoredCredentials := removeStoredCredentials;
     UseBiometricAuthReturn.checkStoredCredentials := checkStoredCredentials |}.

End Render.

End useBiometricAuth.

(** ** AuthContext.tsx *)
Module AuthContext.

(** Mock user credentials for testing *)
Definition MOCK_CREDENTIALS : StoredCredentials.t :=
  {| StoredCredentials.username := "admin";
     StoredCredentials.password := "password123" |}.

Definition isAuthenticated (w : World) : bool :=
  match user w with Some _ => true | None => false end.

Definition login (username password : string) : M bool :=
  update (setIsLoading true) ;;
  (* Simulate API call delay *)
  sleep 1000 ;;
  (* Check mock credentials *)
  if String.eqb username (StoredCredentials.username MOCK_CREDENTIALS)
     && String.eqb password (StoredCredentials.password MOCK_CREDENTIALS) then
    let mockUser :=
      {| User.id := "1";
         User.username := username;
         User.email := username +:+ "@example.com" |} in
    update (setUser (Some mockUser)) ;;
    update (setIsLoading false) ;;
    ret true
  else
    update (setIsLoading false) ;;
    ret false.

Section AuthProvider.

(** What [useBiometricAuth()] gave to the render these callbacks were built
    in. *)
Variable hook : UseBiometricAuthReturn.t.

Definition logout : M unit :=
  tryCatch
    ((* Clear user state *)
     update (setUser None) ;;
     (* Remove biometric credentials from secure storage *)
     biometricRemovalResult <- UseBiometricAuthReturn.removeStoredCredentials hook ;;
     (* Clear all user preferences and data *)
     UserPreferences.clearAllAppData ;;
     (* Force refresh biometric state to reflect the cleanup *)
     UseBiometricAuthReturn.checkStoredCredentials hook ;;
     ret tt)
    (fun error =>
       (* Still set user to null even if cleanup fails *)
       update (setUser None)).

Definition enableBiometricLogin (username password : string) : M BiometricAuthResult.t :=
  if negb (UseBiometricAuthReturn.isAvailable hook) then
    ret (BiometricAuthService.failure
           "Biometric authentication is not available on this device")
  else
    tryCatch
      (result <- UseBiometricAuthReturn.storeCredentials hook username password ;;
       ret result)
      (fun error =>
         m <- messageOrSelf error ;;
         ret (BiometricAuthService.failure ("Failed to enable biometric login: " +:+ m))).

Definition disableBiometricLogin : M BiometricAuthResult.t :=
  tryCatch
    (result <- UseBiometricAuthReturn.removeStoredCredentials hook ;;
     ret result)
    (fun error =>
       m <- messageOrSelf error ;;
       ret (BiometricAuthService.failure ("Failed to disable biometric login: " +:+ m))).

(** [showError], the one function of the hook that is not in the record:
    any function from the text to show. *)
Variable showError : string -> M unit.

Definition biometricLogin : M bool :=
  if negb (UseBiometricAuthReturn.isAvailable hook)
     || negb (UseBiometricAuthReturn.hasStoredCredentials hook) then
    ret false
  else
    update (setIsLoading true) ;;
    tryCatch
      (result <- UseBiometricAuthReturn.authenticateWithBiometrics hook ;;
       let failed : M bool :=
         (* the log of result.error is not modelled *)
         update (setIsLoading false) ;;
         ret false in
       match BiometricAuthResult.success result, BiometricAuthResult.credentials result with
       | true, Some found =>
           (* Validate the retrieved credentials against mock credentials *)
           let username := StoredCredentials.username found in
           let password := StoredCredentials.password found in
           if String.eqb username (StoredCredentials.username MOCK_CREDENTIALS)
              && String.eqb password (StoredCredentials.password MOCK_CREDENTIALS) then
             let mockUser :=
               {| User.id := "1";
                  User.username := username;
                  User.email := username +:+ "@example.com" |} in
             update (setUser (Some mockUser)) ;;
             update (setIsLoading false) ;;
             ret true
           else failed
       | _, _ => failed
       end)
      (fun error =>
         update (setIsLoading false) ;;
         m <- messageOrSelf error ;;
         showError ("Biometric authentication failed: " +:+ m) ;;
         ret false).

End AuthProvider.

End AuthContext.

(** ** LoginScreen.tsx: the automatic attempt *)
Module LoginScreen.

(** The dependencies of the effect, as one render of the screen reads
    them.  [handleBiometricLogin] is the identity of the callback, which
    [useCallback] renews whenever [biometricLogin] is a new function. *)
Record Deps : Type := mkDeps {
  isBiometricAvailable : bool;
  hasBiometricCredentials : bool;
  isLoading : bool;
  isBiometricLoading : bool;
  biometricAttempted : bool;
  handleBiometricLogin : Callback
}.

(** [Object.is] on every dependency. *)
Definition sameDeps (a b : Deps) : bool :=
  Bool.eqb (isBiometricAvailable a) (isBiometricAvailable b)
  && Bool.eqb (hasBiometricCredentials a) (hasBiometricCredentials b)
  && Bool.eqb (isLoading a) (isLoading b)
  && Bool.eqb (isBiometricLoading a) (isBiometricLoading b)
  && Bool.eqb (biometricAttempted a) (biometricAttempted b)
  && Nat.eqb (handleBiometricLogin a) (handleBiometricLogin b).

(** One mounted screen. *)
Record Screen : Type := mkScreen {
  autoAttemptedRef : bool;          (* useRef(false) *)
  timers : list (nat * Callback);   (* pending timeouts: their id, what they call *)
  nextTimer : nat;
  effectDeps : option Deps;         (* the dependencies of the last run of the effect *)
  effectCleanup : option nat;       (* the timer its cleanup clears *)
  calls : list Callback             (* the calls of handleBiometricLogin made by timers *)
}.

Definition mounted : Screen :=
  {| autoAttemptedRef := false; timers := []; nextTimer := 0;
     effectDeps := None; effectCleanup := None; calls := [] |}.

Definition setTimeout (callback : Callback) (s : Screen) : nat * Screen :=
  (nextTimer s,
   {| autoAttemptedRef := autoAttemptedRef s;
      timers := timers s ++ [(nextTimer s, callback)];
      nextTimer := S (nextTimer s);
      effectDeps := effectDeps s; effectCleanup := effectCleanup s;
      calls := calls s |}).

Definition clearTimeout (timer : nat) (s : Screen) : Screen :=
  {| autoAttemptedRef := autoAttemptedRef s;
     timers := List.filter (fun t => negb (Nat.eqb (fst t) timer)) (timers s);
     nextTimer := nextTimer s;
     effectDeps := effectDeps s; effectCleanup := effectCleanup s;
     calls := calls s |}.

(** The body of the effect; the result records the dependencies it ran
    with and the cleanup it returns. *)
Definition autoAttemptEffect (d : Deps) (s : Screen) : Screen :=
  if isBiometricAvailable d && hasBiometricCredentials d && negb (isLoading d)
     && negb (isBiometricLoading d) && negb (biometricAttempted d)
     && negb (autoAttemptedRef s) then
    let s1 :=
      {| autoAttemptedRef := true;
         timers := timers s; nextTimer := nextTimer s;
         effectDeps := effectDeps s; effectCleanup := effectCleanup s;
         calls := calls s |} in
    (* Small delay to ensure UI is ready *)
    let (timer, s2) := setTimeout (handleBiometricLogin d) s1 in
    {| autoAttemptedRef := autoAttemptedRef s2;
       timers := timers s2; nextTimer := nextTimer s2;
       effectDeps := Some d; effectCleanup := Some timer;
       calls := calls s2 |}
  else
    {| autoAttemptedRef := autoAttemptedRef s;
       timers := timers s; nextTimer := nextTimer s;
       effectDeps := Some d; effectCleanup := None;
       calls := calls s |}.

Definition runCleanup (s : Screen) : Screen :=
  match effectCleanup s with
  | Some timer => clearTimeout timer s
  | None => s
  end.

(** React commits a render: the effect runs on mount, and again whenever a
    dependency differs from the last run, after the cleanup of that run. *)
Definition commit (d : Deps) (s : Screen) : Screen :=
  match effectDeps s with
  | None => autoAttemptEffect d s
  | Some last =>
      if sameDeps d last then s
      else autoAttemptEffect d (runCleanup s)
  end.

(** The delay of the pending timers elapses: each calls its callback. *)
Definition elapse (s : Screen) : Screen :=
  {| autoAttemptedRef := autoAttemptedRef s;
     timers := [];
     nextTimer := nextTimer s;
     effectDeps := effectDeps s; effectCleanup := effectCleanup s;
     calls := calls s ++ map snd (timers s) |}.

Inductive Step : Type :=
| Commit (d : Deps)
| Elapse.

Definition step (s : Screen) (e : Step) : Screen :=
  match e with
  | Commit d => commit d s
  | Elapse => elapse s
  end.

(** A lifetime of the screen: what happens to it from its mount on. *)
Definition lifetime (steps : list Step) : Screen := fold_left step steps mounted.

(** Every condition of the automatic attempt but the latch holds. *)
Definition ready (d : Deps) : bool :=
  isBiometricAvailable d && hasBiometricCredentials d && negb (isLoading d)
  && negb (isBiometricLoading d) && negb (biometricAttempted d).

(** What the screen gets from [useAuth()] and uses to enrol. *)
Section Handlers.

Variable faults : AsyncStorage.ItemFaults.
Variable enableBiometricLogin : string -> string -> M BiometricAuthResult.t.
Variable biometricTypeDescription : string.

Definition okButton : AlertButton :=
  {| text := "OK"; onPress := None; style := None |}.

(** In the [catch] clause the alert is given no buttons: the empty list
    stands for the missing argument. *)
Definition handleEnableBiometric (username password : string) : M unit :=
  tryCatch
    (result <- enableBiometricLogin username password ;;
     if BiometricAuthResult.success result then
       (* Clear the dismissal flag since user has now enabled biometric *)
       UserPreferences.clearBiometricPromptDismissed faults ;;
       UserPreferences.setBiometricPromptShown faults ;;
       Alert.alert "Success"
         (biometricTypeDescription +:+ " has been enabled for your account.")
         [okButton]
     else
       match BiometricAuthResult.cancelled result with
       | Some true => ret tt
       | _ =>
           Alert.alert "Error"
             (orString (BiometricAuthResult.error result) "Unable to enable biometric login.")
             [okButton]
       end)
    (fun error =>
       Alert.alert "Error" "An unexpected error occurred while enabling biometric login." []).

End Handlers.

End LoginScreen.

(** ** The classifier as the specification words it

    A table of rules read in order, the first rule with a keyword found in
    the lower-cased text gives the kind.  It is compared with [parseError]
    below. *)
Module Spec.

Inductive ErrorKind : Type :=
| UserCancelled | NotAvailable | NotEnrolled | AuthFailed
| Lockout | HardwareError | SystemError | Unknown.

Definition rules : list (list string * ErrorKind) :=
  [ (["cancel"], UserCancelled);
    (["not available"; "not supported"], NotAvailable);
    (["not enrolled"; "no biometric"], NotEnrolled);
    (["authentication failed"; "failed"], AuthFailed);
    (["too many"; "lockout"], Lockout);
    (["hardware"; "sensor"], HardwareError);
    (["system"; "internal"], SystemError) ].

Fixpoint firstMatch (rs : list (list string * ErrorKind)) (lower : string) : ErrorKind :=
  match rs with
  | [] => Unknown
  | (keywords, kind) :: rs' =>
      if existsb (includes lower) keywords then kind else firstMatch rs' lower
  end.

Definition classify (raw : string) : ErrorKind := firstMatch rules (toLowerCase raw).

Definition recoverable (k : ErrorKind) : bool :=
  match k with
  | NotAvailable | NotEnrolled | Lockout => false
  | _ => true
  end.

(** The code the source gives to each kind. *)
Definition codeOf (k : ErrorKind) : string :=
  match k with
  | UserCancelled => "USER_CANCELLED"
  | NotAvailable => "NOT_AVAILABLE"
  | NotEnrolled => "NOT_ENROLLED"
  | AuthFailed => "AUTH_FAILED"
  | Lockout => "LOCKOUT"
  | HardwareError => "HARDWARE_ERROR"
  | SystemError => "SYSTEM_ERROR"
  | Unknown => "UNKNOWN_ERROR"
  end.

End Spec.

(** ** What the statements below are made of *)

(** How many events of a trace satisfy [p]. *)
Definition countCalls (p : Event -> bool) (t : list Event) : nat := length (List.filter p t).

Definition isSetGenericPassword (e : Event) : bool :=
  match e with Keychain_setGenericPassword _ _ => true | _ => false end.

Definition isGetGenericPassword (e : Event) : bool :=
  match e with Keychain_getGenericPassword => true | _ => false end.

Definition isKeychainCall (e : Event) : bool :=
  match e with
  | Keychain_getSupportedBiometryType | Keychain_setGenericPassword _ _
  | Keychain_getGenericPassword | Keychain_hasGenericPassword
  | Keychain_resetGenericPassword => true
  | _ => false
  end.

(** The invariant of a result: cancelled only with a failure, credentials
    only with a success. *)
Definition wellFormed (r : BiometricAuthResult.t) : bool :=
  implb (match BiometricAuthResult.cancelled r with Some true => true | _ => false end)
        (negb (BiometricAuthResult.success r))
  && implb (match BiometricAuthResult.credentials r with Some _ => true | None => false end)
           (BiometricAuthResult.success r).

(** [m] run in [w] returns a result, and the result is well formed. *)
Definition returnsWellFormed (m : M BiometricAuthResult.t) (w : World) : Prop :=
  exists r w', m w = (Returns r, w') /\ wellFormed r = true.

(** The results the operations on credentials produce: those of the
    service, of the hook, and of the provider on top of the hook. *)
Inductive Produced (r : BiometricAuthResult.t) : Prop :=
| service_store (username password : string) (w w' : World) :
    BiometricAuthService.storeCredentials username password w = (Returns r, w') ->
    Produced r
| service_retrieve (w w' : World) :
    BiometricAuthService.getStoredCredentials w = (Returns r, w') ->
    Produced r
| service_remove (w w' : World) :
    BiometricAuthService.removeStoredCredentials w = (Returns r, w') ->
    Produced r
| hook_store (s : HookState.t) (username password : string) (w w' : World) :
    useBiometricAuth.storeCredentials s username password w = (Returns r, w') ->
    Produced r
| hook_authenticate (s : HookState.t) (w w' : World) :
    useBiometricAuth.authenticateWithBiometrics s w = (Returns r, w') ->
    Produced r
| hook_remove (w w' : World) :
    useBiometricAuth.removeStoredCredentials w = (Returns r, w') ->
    Produced r
| provider_enable (s : HookState.t) (username password : string) (w w' : World) :
    AuthContext.enableBiometricLogin (useBiometricAuth.useBiometricAuth s)
      username password w = (Returns r, w') ->
    Produced r
| provider_disable (s : HookState.t) (w w' : World) :
    AuthContext.disableBiometricLogin (useBiometricAuth.useBiometricAuth s) w
    = (Returns r, w') ->
    Produced r.

(** What holds all along a lifetime of the login screen: nothing is
    pending or called before the latch is set, and pending timers and calls
    made never count more than one together. *)
Definition atMostOne (s : LoginScreen.Screen) : Prop :=
  (LoginScreen.autoAttemptedRef s = false ->
   LoginScreen.timers s = [] /\ LoginScreen.calls s = [])
  /\ length (LoginScreen.timers s) + length (LoginScreen.calls s) <= 1.

(** What is left once the latch is set and the timer cleared. *)
Definition lost (s : LoginScreen.Screen) : Prop :=
  LoginScreen.autoAttemptedRef s = true
  /\ LoginScreen.timers s = [] /\ LoginScreen.calls s = [].

(** A value that has no [message] to read. *)
Definition nullish (v : JsValue) : bool :=
  match v with JsUndefined | JsNull => true | _ => false end.

(** ** A device and a world to run the operations on *)
Module Sample.

(** A phone with a fingerprint reader where every call succeeds. *)
Definition phone : Device :=
  {| supportedBiometryType := Returns (Some FINGERPRINT);
     setGenericPasswordFault := None;
     getGenericPasswordFault := None;
     hasGenericPasswordFault := None;
     resetGenericPasswordResult := Returns true;
     getAllKeysFault := None;
     multiRemoveFault := None |}.

(** A phone without biometrics. *)
Definition plainPhone : Device :=
  {| supportedBiometryType := Returns None;
     setGenericPasswordFault := None;
     getGenericPasswordFault := None;
     hasGenericPasswordFault := None;
     resetGenericPasswordResult := Returns true;
     getAllKeysFault := None;
     multiRemoveFault := None |}.

(** A phone where the user cancels the prompt, removal is rejected and the
    preference storage is broken. *)
Definition brokenPhone : Device :=
  {| supportedBiometryType := Returns (Some FACE_ID);
     setGenericPasswordFault := Some (JsObject (Some "storage full") "Error: storage full");
     getGenericPasswordFault := Some (JsObject (Some "User canceled the operation")
                                        "Error: User canceled the operation");
     hasGenericPasswordFault := Some JsNull;
     resetGenericPasswordResult := Throws JsUndefined;
     getAllKeysFault := Some (JsString "disk error");
     multiRemoveFault := Some (JsString "disk error") |}.

(** The app just started on [d]: nothing stored, nobody logged in. *)
Definition started (d : Device) : World :=
  {| device := d; keychain := None; asyncStorage := ∅; user := None;
     isLoading := false; bio := HookState.initial; trace := [] |}.

(** The cells of the hook once initialised on a phone with biometrics and
    no stored credentials. *)
Definition noCredentials : HookState.t :=
  {| HookState.isAvailable := true; HookState.biometryType := Some FINGERPRINT;
     HookState.isLoading := false; HookState.hasStoredCredentials := false;
     HookState.isInitialized := true |}.

(** The same with stored credentials. *)
Definition enrolled : HookState.t :=
  {| HookState.isAvailable := true; HookState.biometryType := Some FINGERPRINT;
     HookState.isLoading := false; HookState.hasStoredCredentials := true;
     HookState.isInitialized := true |}.

(** A session of the mock user with stored credentials and preferences. *)
Definition loggedIn (d : Device) : World :=
  {| device := d;
     keychain := Some (StoredCredentials.mk "admin" "password123");
     asyncStorage := {[ "last_username" := "admin"; "biometric_prompt_shown" := "true" ]};
     user := Some (User.mk "1" "admin" "admin@example.com");
     isLoading := false; bio := enrolled; trace := [] |}.

(** What a render of the login screen reads when everything is ready for
    the automatic attempt; [callback] is the identity of
    [handleBiometricLogin] in that render. *)
Definition readyDeps (callback : Callback) : LoginScreen.Deps :=
  {| LoginScreen.isBiometricAvailable := true;
     LoginScreen.hasBiometricCredentials := true;
     LoginScreen.isLoading := false;
     LoginScreen.isBiometricLoading := false;
     LoginScreen.biometricAttempted := false;
     LoginScreen.handleBiometricLogin := callback |}.

End Sample.

(** * Properties *)

(** ** Strings *)

Lemma startsWith_spec (t s : string) :
  startsWith s t = true <-> exists b, s = t +:+ b.
Proof.
  revert s; induction t as [|c t IH]; intros s; simpl.
  - split; [intros _; now exists s | reflexivity].
  - destruct s as [|a s]; simpl.
    + split; [discriminate | intros [b Hb]; discriminate].
    + rewrite andb_true_iff, Ascii.eqb_eq, IH. split.
      * intros [-> [b ->]]. now exists b.
      * intros [b Hb]. injection Hb as -> ->. split; [reflexivity | now exists b].
Qed.

Lemma includes_spec (s t : string) :
  includes s t = true <-> exists a b, s = a +:+ t +:+ b.
Proof.
  induction s as [|c s IH].
  - simpl. rewrite orb_false_r, startsWith_spec. split.
    + intros [b Hb]. now exists "", b.
    + intros [a [b Hab]]. destruct a as [|x a]; [now exists b | discriminate].
  - cbn [includes]. rewrite orb_true_iff, startsWith_spec, IH. split.
    + intros [[b Hb] | [a [b Hab]]].
      * now exists "", b.
      * exists (String c a), b. simpl. now rewrite Hab.
    + intros [a [b Hab]]. destruct a as [|x a].
      * left. now exists b.
      * right. simpl in Hab. injection Hab as _ Hs. now exists a, b.
Qed.

Lemma append_assoc (a b c : string) : (a +:+ b) +:+ c = a +:+ (b +:+ c).
Proof.
  induction a as [|x a IH]; [reflexivity |].
  change (String x ((a +:+ b) +:+ c) = String x (a +:+ b +:+ c)).
  now rewrite IH.
Qed.

(** A string that includes [u +:+ t +:+ v] includes [t]. *)
Lemma includes_part (s u t v : string) :
  includes s (u +:+ t +:+ v) = true -> includes s t = true.
Proof.
  rewrite !includes_spec. intros [a [b ->]].
  exists (a +:+ u), (v +:+ b). now rewrite !append_assoc.
Qed.

Lemma includes_part_false (s u t v : string) :
  includes s t = false -> includes s (u +:+ t +:+ v) = false.
Proof.
  intros H. destruct (includes s (u +:+ t +:+ v)) eqn:E; [|reflexivity].
  apply includes_part in E. congruence.
Qed.

Lemma includes_nonempty (s t : string) :
  includes s t = true -> t <> "" -> s <> "".
Proof.
  intros H Ht ->. destruct t; [congruence | discriminate].
Qed.

(** ** The error classifier *)

Import BiometricErrorHandler.

(** For a non-empty string the message classified is the string itself. *)
Lemma errorMessageOf_string (raw : string) :
  raw <> "" -> errorMessageOf (JsString raw) = raw.
Proof.
  intros H. unfold errorMessageOf; simpl. unfold truthy.
  destruct (String.eqb_spec raw ""); [contradiction | reflexivity].
Qed.

Lemma toLowerCase_nonempty (s : string) : toLowerCase s <> "" -> s <> "".
Proof. intros H ->. now apply H. Qed.

(** [parseError] is the first-match reading of the table of rules, for the
    code and for the recoverable flag; the message is the text classified. *)
Lemma parseError_refines_rules (error : JsValue) :
  let kind := Spec.classify (errorMessageOf error) in
  code (parseError error) = Spec.codeOf kind
  /\ recoverable (parseError error) = Spec.recoverable kind
  /\ message (parseError error) = errorMessageOf error.
Proof.
  unfold parseError, Spec.classify. cbn [Spec.firstMatch Spec.rules existsb].
  set (lower := toLowerCase (errorMessageOf error)).
  rewrite !orb_false_r.
  destruct (includes lower "cancel") eqn:Hcancel; cbn [orb].
  { repeat split. }
  assert (Huser : includes lower "user cancel" = false)
    by exact (includes_part_false lower "user " "cancel" "" Hcancel).
  rewrite Huser.
  destruct (includes lower "not available" || includes lower "not supported");
    [repeat split |].
  destruct (includes lower "not enrolled" || includes lower "no biometric");
    [repeat split |].
  destruct (includes lower "authentication failed" || includes lower "failed");
    [repeat split |].
  destruct (includes lower "too many" || includes lower "lockout");
    [repeat split |].
  destruct (includes lower "hardware" || includes lower "sensor");
    [repeat split |].
  destruct (includes lower "system" || includes lower "internal");
    repeat split.
Qed.

(** The kind is [AuthFailed] as soon as "failed" is found and no keyword of
    the three rules before it is: what the later rules look for is not
    consulted. *)
Lemma classify_failed (lower : string) :
  includes lower "failed" = true ->
  includes lower "cancel" = false ->
  includes lower "not available" = false ->
  includes lower "not supported" = false ->
  includes lower "not enrolled" = false ->
  includes lower "no biometric" = false ->
  Spec.firstMatch Spec.rules lower = Spec.AuthFailed.
Proof.
  intros Hf H1 H2 H3 H4 H5. cbn [Spec.firstMatch Spec.rules existsb].
  now rewrite Hf, H1, H2, H3, H4, H5, !orb_true_r.
Qed.

(** C1, as stated, fails: "Authentication failed: user cancelled" contains
    "failed", and rule 1 ("cancel") classifies it before rule 4 is read. *)
Lemma failed_is_not_always_auth_failed :
  ~ (forall raw : string,
       includes (toLowerCase raw) "failed" = true ->
       code (parseError (JsString raw)) = "AUTH_FAILED").
Proof.
  intros H.
  specialize (H "Authentication failed: user cancelled" eq_refl).
  vm_compute in H. discriminate H.
Qed.

(** C1 (amended): the rules are tried in order and the first match wins.  A
    raw error string whose lower-cased form contains "failed" and none of
    the keywords of the rules before rule 4 ("cancel", "not available",
    "not supported", "not enrolled", "no biometric") is classified
    AUTH_FAILED, whatever keywords of the later rules ("lockout", "sensor",
    "system", ...) it also contains. *)
Theorem failed_wins_over_later_rules (raw : string) :
  includes (toLowerCase raw) "failed" = true ->
  includes (toLowerCase raw) "cancel" = false ->
  includes (toLowerCase raw) "not available" = false ->
  includes (toLowerCase raw) "not supported" = false ->
  includes (toLowerCase raw) "not enrolled" = false ->
  includes (toLowerCase raw) "no biometric" = false ->
  code (parseError (JsString raw)) = "AUTH_FAILED"
  /\ recoverable (parseError (JsString raw)) = true
  /\ message (parseError (JsString raw)) = raw.
Proof.
  intros Hf H1 H2 H3 H4 H5.
  assert (Hraw : errorMessageOf (JsString raw) = raw).
  { apply errorMessageOf_string, toLowerCase_nonempty.
    now apply (includes_nonempty _ "failed"). }
  destruct (parseError_refines_rules (JsString raw)) as (Hc & Hr & Hm).
  unfold Spec.classify in Hc, Hr. rewrite Hraw in Hc, Hr, Hm.
  rewrite (classify_failed _ Hf H1 H2 H3 H4 H5) in Hc, Hr.
  now rewrite Hc, Hr, Hm.
Qed.

(** The example of the specification: rule 4 ("failed") is read before rule
    6 ("sensor"). *)
Lemma failed_sensor_timeout_is_auth_failed :
  code (parseError (JsString "Authentication failed: sensor timeout")) = "AUTH_FAILED"
  /\ recoverable (parseError (JsString "Authentication failed: sensor timeout")) = true
  /\ message (parseError (JsString "Authentication failed: sensor timeout"))
     = "Authentication failed: sensor timeout".
Proof.
  apply (failed_wins_over_later_rules "Authentication failed: sensor timeout");
    reflexivity.
Defined.

(** [showErrorDialog] returns at once on USER_CANCELLED. *)
Lemma showErrorDialog_cancelled (error : BiometricError)
    (biometricType : option BIOMETRY_TYPE) (onRetry onFallback : option Callback)
    (w : World) :
  code error = "USER_CANCELLED" ->
  showErrorDialog error biometricType onRetry onFallback w = (Returns tt, w).
Proof. intros H. unfold showErrorDialog. now rewrite H. Qed.

(** On every other code it shows one dialog and does nothing else. *)
Lemma showErrorDialog_other (error : BiometricError)
    (biometricType : option BIOMETRY_TYPE) (onRetry onFallback : option Callback)
    (w : World) :
  code error <> "USER_CANCELLED" ->
  exists title buttons,
    showErrorDialog error biometricType onRetry onFallback w
    = (Returns tt,
       with_trace (trace w ++ [Alert_alert title (userMessage error) buttons]) w).
Proof.
  intros H. unfold showErrorDialog.
  destruct (String.eqb_spec (code error) "USER_CANCELLED"); [contradiction |].
  eexists _, _. reflexivity.
Qed.

Lemma parseError_cancel (error : JsValue) :
  includes (toLowerCase (errorMessageOf error)) "cancel" = true ->
  code (parseError error) = "USER_CANCELLED".
Proof. intros H. unfold parseError. now rewrite H. Qed.

(** C2: a raw error string whose lower-cased form contains "cancel" is
    classified USER_CANCELLED, and presenting it, or any error with that
    code, shows no dialog: the call returns and the world, the trace of
    dialogs included, is as it was. *)
Theorem cancel_is_classified_and_silent (raw : string) :
  includes (toLowerCase raw) "cancel" = true ->
  code (parseError (JsString raw)) = "USER_CANCELLED"
  /\ forall biometricType onRetry onFallback w,
       showErrorDialog (parseError (JsString raw)) biometricType onRetry onFallback w
       = (Returns tt, w).
Proof.
  intros H.
  assert (Hraw : errorMessageOf (JsString raw) = raw).
  { apply errorMessageOf_string, toLowerCase_nonempty.
    now apply (includes_nonempty _ "cancel"). }
  assert (Hc : code (parseError (JsString raw)) = "USER_CANCELLED").
  { apply parseError_cancel. now rewrite Hraw. }
  split; [exact Hc |].
  intros. now apply showErrorDialog_cancelled.
Qed.

Lemma cancel_is_classified_and_silent_witness :
  code (parseError (JsString "User CANCELED the operation")) = "USER_CANCELLED"
  /\ forall biometricType onRetry onFallback w,
       showErrorDialog (parseError (JsString "User CANCELED the operation"))
         biometricType onRetry onFallback w
       = (Returns tt, w).
Proof.
  apply (cancel_is_classified_and_silent "User CANCELED the operation").
  reflexivity.
Defined.

(** ** The service *)

(** Unfolds the monadic code of the sources down to the cases on what the
    device answers. *)
Ltac unfold_js :=
  unfold BiometricAuthService.storeCredentials, BiometricAuthService.getStoredCredentials,
    BiometricAuthService.removeStoredCredentials, BiometricAuthService.hasStoredCredentials,
    BiometricAuthService.getBiometricCapabilities,
    UserPreferences.clearAllAppData,
    Keychain.getSupportedBiometryType, Keychain.setGenericPassword,
    Keychain.getGenericPassword, Keychain.hasGenericPassword,
    Keychain.resetGenericPassword, AsyncStorage.getAllKeys, AsyncStorage.multiRemove,
    messageIncludesCancel, messageOrSelf, getMessage, update, sleep, emit,
    tryCatch, tryFinally, bind, ret, throw in *.

(** The probe returns after one call to the keychain library. *)
Lemma getBiometricCapabilities_returns (w : World) :
  exists c : BiometricCapabilities.t,
    BiometricAuthService.getBiometricCapabilities w
    = (Returns c, with_trace (trace w ++ [Keychain_getSupportedBiometryType]) w).
Proof.
  unfold_js. cbn.
  destruct (supportedBiometryType (device w)) as [[t|]|e]; eexists; reflexivity.
Qed.

(** C9: the probe asks the device once and always returns a value, whatever
    the device does: a biometry type gives [isAvailable = true]; [null]
    gives [isAvailable = false] with an error text; a rejection gives
    [isAvailable = false] with the text of what was thrown. *)
Theorem getBiometricCapabilities_never_throws (w : World) :
  exists c : BiometricCapabilities.t,
    BiometricAuthService.getBiometricCapabilities w
    = (Returns c, with_trace (trace w ++ [Keychain_getSupportedBiometryType]) w)
    /\ match supportedBiometryType (device w) with
       | Returns (Some t) =>
           c = {| BiometricCapabilities.isAvailable := true;
                  BiometricCapabilities.biometryType := Some t;
                  BiometricCapabilities.error := None |}
       | Returns None =>
           c = {| BiometricCapabilities.isAvailable := false;
                  BiometricCapabilities.biometryType := None;
                  BiometricCapabilities.error :=
                    Some "Biometric authentication is not available on this device" |}
       | Throws e =>
           c = {| BiometricCapabilities.isAvailable := false;
                  BiometricCapabilities.biometryType := None;
                  BiometricCapabilities.error :=
                    Some ("Error checking biometric capabilities: " +:+ ToString e) |}
       end.
Proof.
  unfold_js. cbn.
  destruct (supportedBiometryType (device w)) as [[t|]|e]; eexists; split; reflexivity.
Qed.

(** ** The guards of the hook *)

(** C3: [authenticateWithBiometrics], called from a render that saw
    [isAvailable = false] or [hasStoredCredentials = false], returns a
    failure with an error text and no credentials, and leaves the world as
    it was: no call reaches the keychain, so the number of retrievals in the
    trace is what it was. *)
Theorem authenticate_guard (s : HookState.t) (w : World) :
  HookState.isAvailable s = false \/ HookState.hasStoredCredentials s = false ->
  (exists r : BiometricAuthResult.t,
     useBiometricAuth.authenticateWithBiometrics s w = (Returns r, w)
     /\ BiometricAuthResult.success r = false
     /\ BiometricAuthResult.credentials r = None
     /\ exists text, BiometricAuthResult.error r = Some text /\ text <> "")
  /\ countCalls isGetGenericPassword
       (trace (snd (useBiometricAuth.authenticateWithBiometrics s w)))
     = countCalls isGetGenericPassword (trace w).
Proof.
  intros H. unfold useBiometricAuth.authenticateWithBiometrics.
  destruct (HookState.isAvailable s) eqn:Ha; cbn [negb].
  - destruct H as [H | H]; [discriminate |]. rewrite H. cbn [negb].
    split; [| reflexivity].
    eexists. split; [reflexivity |]. cbn.
    repeat split. eexists; split; [reflexivity | discriminate].
  - split; [| reflexivity].
    eexists. split; [reflexivity |]. cbn.
    repeat split. eexists; split; [reflexivity | discriminate].
Qed.

Lemma authenticate_guard_witness :
  (exists r : BiometricAuthResult.t,
     useBiometricAuth.authenticateWithBiometrics Sample.noCredentials
       (Sample.started Sample.phone)
     = (Returns r, Sample.started Sample.phone)
     /\ BiometricAuthResult.success r = false
     /\ BiometricAuthResult.credentials r = None
     /\ exists text, BiometricAuthResult.error r = Some text /\ text <> "")
  /\ countCalls isGetGenericPassword
       (trace (snd (useBiometricAuth.authenticateWithBiometrics Sample.noCredentials
                      (Sample.started Sample.phone))))
     = countCalls isGetGenericPassword (trace (Sample.started Sample.phone)).
Proof.
  apply (authenticate_guard Sample.noCredentials (Sample.started Sample.phone)).
  right. reflexivity.
Defined.

(** When both guards pass, the keychain is asked: the guard is what keeps
    the retrieval away, not the model. *)
Lemma authenticate_reaches_keychain (s : HookState.t) (w : World) :
  HookState.isAvailable s = true -> HookState.hasStoredCredentials s = true ->
  (exists t, supportedBiometryType (device w) = Returns (Some t)) ->
  countCalls isGetGenericPassword
    (trace (snd (useBiometricAuth.authenticateWithBiometrics s w)))
  = countCalls isGetGenericPassword (trace w) + 1.
Proof.
  intros Ha Hc [t Hd]. unfold useBiometricAuth.authenticateWithBiometrics.
  rewrite Ha, Hc. cbn [negb]. unfold_js. cbn. rewrite Hd. cbn.
  destruct (getGenericPasswordFault (device w)) as [e|]; cbn.
  - destruct e as [| | m | [m|] str]; cbn;
      try destruct (truthy m && includes m "cancel"); cbn;
      unfold countCalls; rewrite !List.filter_app, !List.length_app; cbn; lia.
  - destruct (keychain w); cbn;
      unfold countCalls; rewrite !List.filter_app, !List.length_app; cbn; lia.
Qed.

(** C4: [storeCredentials] called when the capability is not available
    fails with an error text and writes nothing.  In the hook and in the
    provider, a render that saw [isAvailable = false] gets the failure with
    the world untouched.  In the service, when the probe reports
    [isAvailable = false], the failure is returned after the probe alone:
    the keychain entry is what it was and no write was attempted. *)
Theorem store_guard (username password : string) (w : World) :
  (forall s : HookState.t,
     HookState.isAvailable s = false ->
     useBiometricAuth.storeCredentials s username password w
     = (Returns (BiometricAuthService.failure
                   "Biometric authentication is not available on this device"), w)
     /\ AuthContext.enableBiometricLogin (useBiometricAuth.useBiometricAuth s)
          username password w
        = (Returns (BiometricAuthService.failure
                      "Biometric authentication is not available on this device"), w))
  /\ (forall (c : BiometricCapabilities.t) (w1 : World),
        BiometricAuthService.getBiometricCapabilities w = (Returns c, w1) ->
        BiometricCapabilities.isAvailable c = false ->
        BiometricAuthService.storeCredentials username password w
        = (Returns (BiometricAuthService.failure
                      "Biometric authentication is not available"), w1)
        /\ keychain w1 = keychain w
        /\ countCalls isSetGenericPassword (trace w1)
           = countCalls isSetGenericPassword (trace w)).
Proof.
  split.
  - intros s H. unfold useBiometricAuth.storeCredentials, AuthContext.enableBiometricLogin.
    cbn [UseBiometricAuthReturn.isAvailable useBiometricAuth.useBiometricAuth].
    rewrite H. split; reflexivity.
  - intros c w1 Hp Hc.
    destruct (getBiometricCapabilities_returns w) as (c' & Heq).
    rewrite Heq in Hp. injection Hp as -> <-.
    unfold BiometricAuthService.storeCredentials.
    unfold tryCatch at 1. unfold bind at 1. rewrite Heq, Hc. cbn.
    repeat split.
    unfold countCalls. rewrite List.filter_app, List.length_app. cbn. lia.
Qed.

Lemma store_guard_witness :
  (useBiometricAuth.storeCredentials HookState.initial "admin" "password123"
     (Sample.started Sample.plainPhone)
   = (Returns (BiometricAuthService.failure
                 "Biometric authentication is not available on this device"),
      Sample.started Sample.plainPhone))
  /\ exists w1,
       BiometricAuthService.storeCredentials "admin" "password123"
         (Sample.started Sample.plainPhone)
       = (Returns (BiometricAuthService.failure
                     "Biometric authentication is not available"), w1)
       /\ keychain w1 = None
       /\ countCalls isSetGenericPassword (trace w1) = 0.
Proof.
  destruct (store_guard "admin" "password123" (Sample.started Sample.plainPhone))
    as [Hhook Hservice].
  split.
  - apply (Hhook HookState.initial). reflexivity.
  - eexists. eapply Hservice; reflexivity.
Defined.

(** ** Storing and retrieving *)

(** A successful [storeCredentials] has written the pair to the keychain. *)
Lemma storeCredentials_success (username password : string) (w w1 : World)
    (r : BiometricAuthResult.t) :
  BiometricAuthService.storeCredentials username password w = (Returns r, w1) ->
  BiometricAuthResult.success r = true ->
  keychain w1 = Some (StoredCredentials.mk username password).
Proof.
  unfold_js. cbn.
  destruct (supportedBiometryType (device w)) as [[t|]|e]; cbn.
  - destruct (setGenericPasswordFault (device w)) as [e|]; cbn.
    + destruct e as [| | m | [m|] str]; cbn;
        try destruct (truthy m && includes m "cancel"); cbn;
        intros H; inversion H; subst; cbn; discriminate.
    + intros H; inversion H; subst; reflexivity.
  - intros H; inversion H; subst; cbn; discriminate.
  - intros H; inversion H; subst; cbn; discriminate.
Qed.

(** On a device with biometrics that accepts the write, it succeeds. *)
Lemma storeCredentials_succeeds (username password : string) (w : World)
    (t : BIOMETRY_TYPE) :
  supportedBiometryType (device w) = Returns (Some t) ->
  setGenericPasswordFault (device w) = None ->
  exists r w1,
    BiometricAuthService.storeCredentials username password w = (Returns r, w1)
    /\ BiometricAuthResult.success r = true.
Proof.
  intros Hd Hs. unfold_js. cbn. rewrite Hd. cbn. rewrite Hs.
  eexists _, _. split; reflexivity.
Qed.

(** With biometrics available and the challenge passed, [getStoredCredentials]
    returns what the keychain holds. *)
Lemma getStoredCredentials_reads (w : World) (t : BIOMETRY_TYPE)
    (username password : string) :
  supportedBiometryType (device w) = Returns (Some t) ->
  getGenericPasswordFault (device w) = None ->
  keychain w = Some (StoredCredentials.mk username password) ->
  exists w',
    BiometricAuthService.getStoredCredentials w
    = (Returns {| BiometricAuthResult.success := true;
                  BiometricAuthResult.credentials :=
                    Some (StoredCredentials.mk username password);
                  BiometricAuthResult.error := None;
                  BiometricAuthResult.cancelled := None |}, w').
Proof.
  intros Hd Hg Hk. unfold_js. cbn. rewrite Hd. cbn. rewrite Hg, Hk.
  eexists. reflexivity.
Qed.

(** C5: after [storeCredentials username password] has returned a success,
    [getStoredCredentials], run in any world whose keychain entry is the one
    the store left, on a device that reports biometrics and whose challenge
    is passed, returns a success with exactly that pair. *)
Theorem store_then_retrieve (username password : string) (w w1 w2 : World)
    (r : BiometricAuthResult.t) (t : BIOMETRY_TYPE) :
  BiometricAuthService.storeCredentials username password w = (Returns r, w1) ->
  BiometricAuthResult.success r = true ->
  keychain w2 = keychain w1 ->
  supportedBiometryType (device w2) = Returns (Some t) ->
  getGenericPasswordFault (device w2) = None ->
  exists w3,
    BiometricAuthService.getStoredCredentials w2
    = (Returns {| BiometricAuthResult.success := true;
                  BiometricAuthResult.credentials :=
                    Some {| StoredCredentials.username := username;
                            StoredCredentials.password := password |};
                  BiometricAuthResult.error := None;
                  BiometricAuthResult.cancelled := None |}, w3).
Proof.
  intros Hstore Hok Hk Hd Hg.
  apply (getStoredCredentials_reads w2 t); [exact Hd | exact Hg |].
  rewrite Hk. exact (storeCredentials_success _ _ _ _ _ Hstore Hok).
Qed.

(** The round trip of the specification: "admin" and "password123" stored
    on a working phone, then retrieved. *)
Lemma store_then_retrieve_witness :
  exists w3,
    BiometricAuthService.getStoredCredentials
      (snd (BiometricAuthService.storeCredentials "admin" "password123"
              (Sample.started Sample.phone)))
    = (Returns {| BiometricAuthResult.success := true;
                  BiometricAuthResult.credentials :=
                    Some {| StoredCredentials.username := "admin";
                            StoredCredentials.password := "password123" |};
                  BiometricAuthResult.error := None;
                  BiometricAuthResult.cancelled := None |}, w3).
Proof.
  eapply (store_then_retrieve "admin" "password123" (Sample.started Sample.phone)
            _ _ _ FINGERPRINT); reflexivity.
Defined.

(** ** The invariant of results *)

Lemma wellFormed_failure (text : string) :
  wellFormed (BiometricAuthService.failure text) = true.
Proof. reflexivity. Qed.

(** The service's [storeCredentials] returns a well-formed result; the one
    way out is the keychain rejecting the write with [null] or [undefined],
    whose [message] the [catch] clause cannot read. *)
Lemma service_store_wellFormed (username password : string) (w : World) :
  returnsWellFormed (BiometricAuthService.storeCredentials username password) w
  \/ exists e w',
       BiometricAuthService.storeCredentials username password w
       = (Throws (TypeError e), w')
       /\ nullish e = true
       /\ setGenericPasswordFault (device w) = Some e.
Proof.
  unfold returnsWellFormed. unfold_js. cbn.
  destruct (supportedBiometryType (device w)) as [[t|]|e]; cbn;
    [| left; eexists _, _; split; reflexivity ..].
  destruct (setGenericPasswordFault (device w)) as [e|]; cbn;
    [| left; eexists _, _; split; reflexivity].
  destruct e as [| | m | [m|] str]; cbn;
    try destruct (truthy m && includes m "cancel"); cbn;
    try (left; eexists _, _; split; reflexivity);
    right; eexists _, _; repeat split; reflexivity.
Qed.

Lemma service_get_wellFormed (w : World) :
  returnsWellFormed BiometricAuthService.getStoredCredentials w
  \/ exists e w',
       BiometricAuthService.getStoredCredentials w = (Throws (TypeError e), w')
       /\ nullish e = true
       /\ getGenericPasswordFault (device w) = Some e.
Proof.
  unfold returnsWellFormed. unfold_js. cbn.
  destruct (supportedBiometryType (device w)) as [[t|]|e]; cbn;
    [| left; eexists _, _; split; reflexivity ..].
  destruct (getGenericPasswordFault (device w)) as [e|]; cbn.
  - destruct e as [| | m | [m|] str]; cbn;
      try destruct (truthy m && includes m "cancel"); cbn;
      try (left; eexists _, _; split; reflexivity);
      right; eexists _, _; repeat split; reflexivity.
  - destruct (keychain w); cbn; left; eexists _, _; split; reflexivity.
Qed.

Lemma service_has_returns (w : World) :
  exists b w', BiometricAuthService.hasStoredCredentials w = (Returns b, w')
               /\ user w' = user w.
Proof.
  unfold_js. cbn.
  destruct (hasGenericPasswordFault (device w)); cbn; eexists _, _; split; reflexivity.
Qed.

Lemma service_remove_wellFormed (w : World) :
  returnsWellFormed BiometricAuthService.removeStoredCredentials w
  \/ exists e w',
       BiometricAuthService.removeStoredCredentials w = (Throws (TypeError e), w')
       /\ nullish e = true
       /\ resetGenericPasswordResult (device w) = Throws e.
Proof.
  unfold returnsWellFormed. unfold_js. cbn.
  destruct (resetGenericPasswordResult (device w)) as [[|]|e]; cbn;
    [left; eexists _, _; split; reflexivity .. |].
  destruct e as [| | m | [m|] str]; cbn;
    try (left; eexists _, _; split; reflexivity);
    right; eexists _, _; repeat split; reflexivity.
Qed.

(** The functions of the hook always return, and what they return is well
    formed: their [catch] clauses receive the [TypeError] of the service,
    whose [message] can be read. *)
Lemma hook_store_wellFormed (s : HookState.t) (username password : string) (w : World) :
  returnsWellFormed (useBiometricAuth.storeCredentials s username password) w.
Proof.
  unfold returnsWellFormed, useBiometricAuth.storeCredentials.
  destruct (HookState.isAvailable s); cbn [negb];
    [| eexists _, _; split; reflexivity].
  unfold_js. cbn.
  destruct (supportedBiometryType (device w)) as [[t|]|e]; cbn;
    [| eexists _, _; split; reflexivity ..].
  destruct (setGenericPasswordFault (device w)) as [e|]; cbn.
  - destruct e as [| | m | [m|] str]; cbn;
      try destruct (truthy m && includes m "cancel"); cbn;
      eexists _, _; split; reflexivity.
  - destruct (hasGenericPasswordFault (device w)); cbn;
      eexists _, _; split; reflexivity.
Qed.

Lemma hook_authenticate_wellFormed (s : HookState.t) (w : World) :
  returnsWellFormed (useBiometricAuth.authenticateWithBiometrics s) w.
Proof.
  unfold returnsWellFormed, useBiometricAuth.authenticateWithBiometrics.
  destruct (HookState.isAvailable s); cbn [negb];
    [| eexists _, _; split; reflexivity].
  destruct (HookState.hasStoredCredentials s); cbn [negb];
    [| eexists _, _; split; reflexivity].
  unfold_js. cbn.
  destruct (supportedBiometryType (device w)) as [[t|]|e]; cbn;
    [| eexists _, _; split; reflexivity ..].
  destruct (getGenericPasswordFault (device w)) as [e|]; cbn.
  - destruct e as [| | m | [m|] str]; cbn;
      try destruct (truthy m && includes m "cancel"); cbn;
      eexists _, _; split; reflexivity.
  - destruct (keychain w); cbn; eexists _, _; split; reflexivity.
Qed.

Lemma hook_remove_wellFormed (w : World) :
  exists r w',
    useBiometricAuth.removeStoredCredentials w = (Returns r, w')
    /\ wellFormed r = true
    /\ user w' = user w.
Proof.
  unfold useBiometricAuth.removeStoredCredentials. unfold_js. cbn.
  destruct (resetGenericPasswordResult (device w)) as [[|]|e]; cbn;
    [eexists _, _; repeat split; reflexivity .. |].
  destruct e as [| | m | [m|] str]; cbn;
    eexists _, _; repeat split; reflexivity.
Qed.

Lemma returnsWellFormed_unique (m : M BiometricAuthResult.t) (w w' : World)
    (r : BiometricAuthResult.t) :
  returnsWellFormed m w -> m w = (Returns r, w') -> wellFormed r = true.
Proof. intros (r0 & w0 & H0 & Hwf) H. rewrite H in H0. now inversion H0; subst. Qed.

Lemma provider_enable_wellFormed (s : HookState.t) (username password : string)
    (w : World) :
  returnsWellFormed
    (AuthContext.enableBiometricLogin (useBiometricAuth.useBiometricAuth s)
       username password) w.
Proof.
  unfold AuthContext.enableBiometricLogin.
  cbn [UseBiometricAuthReturn.isAvailable UseBiometricAuthReturn.storeCredentials
       useBiometricAuth.useBiometricAuth].
  destruct (HookState.isAvailable s) eqn:Ha; cbn [negb];
    [| eexists _, _; split; reflexivity].
  destruct (hook_store_wellFormed s username password w) as (r & w' & H & Hwf).
  exists r, w'. split; [| exact Hwf].
  unfold tryCatch, bind, ret. now rewrite H.
Qed.

Lemma provider_disable_wellFormed (s : HookState.t) (w : World) :
  returnsWellFormed
    (AuthContext.disableBiometricLogin (useBiometricAuth.useBiometricAuth s)) w.
Proof.
  unfold AuthContext.disableBiometricLogin.
  cbn [UseBiometricAuthReturn.removeStoredCredentials useBiometricAuth.useBiometricAuth].
  destruct (hook_remove_wellFormed w) as (r & w' & H & Hwf & _).
  exists r, w'. split; [| exact Hwf].
  unfold tryCatch, bind, ret. now rewrite H.
Qed.

Lemma wellFormed_spec (r : BiometricAuthResult.t) :
  wellFormed r = true <->
  (BiometricAuthResult.cancelled r = Some true -> BiometricAuthResult.success r = false)
  /\ (BiometricAuthResult.credentials r <> None -> BiometricAuthResult.success r = true).
Proof.
  destruct r as [ok err [[|]|] [cred|]]; destruct ok; cbn; split.
  all: try (intros H; split; intros H';
            first [reflexivity | discriminate | congruence]).
  all: intros [H1 H2];
    first [reflexivity
          | specialize (H1 eq_refl); discriminate
          | apply H2; discriminate].
Qed.

(** C6: every result produced by storing, retrieving, authenticating (and
    removing), in the service, in the hook and in the provider, is cancelled
    only when it is a failure and carries credentials only when it is a
    success. *)
Theorem produced_results_are_well_formed (r : BiometricAuthResult.t) :
  Produced r ->
  (BiometricAuthResult.cancelled r = Some true -> BiometricAuthResult.success r = false)
  /\ (BiometricAuthResult.credentials r <> None -> BiometricAuthResult.success r = true).
Proof.
  intros H. apply wellFormed_spec.
  destruct H as [u p w w' H | w w' H | w w' H | s u p w w' H | s w w' H
                 | w w' H | s u p w w' H | s w w' H].
  - destruct (service_store_wellFormed u p w) as [Hr | (e & w0 & He & _)].
    + exact (returnsWellFormed_unique _ _ _ _ Hr H).
    + rewrite H in He. discriminate.
  - destruct (service_get_wellFormed w) as [Hr | (e & w0 & He & _)].
    + exact (returnsWellFormed_unique _ _ _ _ Hr H).
    + rewrite H in He. discriminate.
  - destruct (service_remove_wellFormed w) as [Hr | (e & w0 & He & _)].
    + exact (returnsWellFormed_unique _ _ _ _ Hr H).
    + rewrite H in He. discriminate.
  - exact (returnsWellFormed_unique _ _ _ _ (hook_store_wellFormed s u p w) H).
  - exact (returnsWellFormed_unique _ _ _ _ (hook_authenticate_wellFormed s w) H).
  - destruct (hook_remove_wellFormed w) as (r0 & w0 & H0 & Hwf & _).
    rewrite H in H0. now inversion H0; subst.
  - exact (returnsWellFormed_unique _ _ _ _ (provider_enable_wellFormed s u p w) H).
  - exact (returnsWellFormed_unique _ _ _ _ (provider_disable_wellFormed s w) H).
Qed.

(** A cancelled prompt: the result of the retrieval is a failure flagged
    cancelled, without credentials. *)
Lemma produced_results_are_well_formed_witness :
  Produced BiometricAuthService.cancelledResult
  /\ (BiometricAuthResult.cancelled BiometricAuthService.cancelledResult = Some true ->
      BiometricAuthResult.success BiometricAuthService.cancelledResult = false)
  /\ (BiometricAuthResult.credentials BiometricAuthService.cancelledResult <> None ->
      BiometricAuthResult.success BiometricAuthService.cancelledResult = true).
Proof.
  assert (H : Produced BiometricAuthService.cancelledResult).
  { apply (service_retrieve _ (Sample.loggedIn Sample.brokenPhone)
             (snd (BiometricAuthService.getStoredCredentials
                     (Sample.loggedIn Sample.brokenPhone)))).
    vm_compute. reflexivity. }
  split; [exact H |].
  exact (produced_results_are_well_formed _ H).
Defined.

(** ** Login and logout *)

Import AuthContext.

(** C8: [login] returns [true] exactly for the pair of MOCK_CREDENTIALS.
    For ("admin", "password123") it returns [true] and the session is that
    of the user "admin"; for every other pair it returns [false], the user
    is what it was (no session is created) and [setUser] is not called. *)
Theorem login_accepts_only_the_mock_pair (username password : string) (w : World) :
  (username = "admin" /\ password = "password123" ->
   exists w',
     login username password w = (Returns true, w')
     /\ user w' = Some {| User.id := "1"; User.username := "admin";
                          User.email := "admin@example.com" |}
     /\ isAuthenticated w' = true)
  /\ (~ (username = "admin" /\ password = "password123") ->
      exists w',
        login username password w = (Returns false, w')
        /\ user w' = user w
        /\ isAuthenticated w' = isAuthenticated w
        /\ trace w' = trace w ++ [React (setIsLoading true); Timeout 1000;
                                  React (setIsLoading false)]).
Proof.
  unfold login. cbn [StoredCredentials.username StoredCredentials.password MOCK_CREDENTIALS].
  split.
  - intros [-> ->]. eexists. split; [reflexivity |]. split; reflexivity.
  - intros Hne.
    destruct (String.eqb_spec username "admin") as [Hu | Hu];
      destruct (String.eqb_spec password "password123") as [Hp | Hp];
      try (exfalso; apply Hne; now split);
      cbn [andb]; unfold_js; cbn; unfold isAuthenticated; cbn;
      eexists; repeat split; now rewrite <- !List.app_assoc.
Qed.

Lemma login_accepts_only_the_mock_pair_witness :
  (exists w',
     login "admin" "password123" (Sample.started Sample.phone) = (Returns true, w')
     /\ user w' = Some {| User.id := "1"; User.username := "admin";
                          User.email := "admin@example.com" |}
     /\ isAuthenticated w' = true)
  /\ (exists w',
        login "admin" "wrong" (Sample.started Sample.phone) = (Returns false, w')
        /\ user w' = None
        /\ isAuthenticated w' = false
        /\ trace w' = [React (setIsLoading true); Timeout 1000;
                       React (setIsLoading false)]).
Proof.
  split.
  - apply (login_accepts_only_the_mock_pair "admin" "password123"
             (Sample.started Sample.phone)).
    split; reflexivity.
  - apply (login_accepts_only_the_mock_pair "admin" "wrong"
             (Sample.started Sample.phone)).
    intros [_ H]. discriminate H.
Defined.

Lemma update_setUser (u : option User.t) (w : World) :
  update (setUser u) w
  = (Returns tt, with_user u (with_trace (trace w ++ [React (setUser u)]) w)).
Proof. reflexivity. Qed.

(** The three steps of the cleanup: each returns, whatever the device
    does, leaves the user alone, and starts with its call to the outside. *)
Lemma hook_remove_step (w : World) :
  exists r w' t,
    useBiometricAuth.removeStoredCredentials w = (Returns r, w')
    /\ user w' = user w
    /\ trace w' = trace w ++ Keychain_resetGenericPassword :: t.
Proof.
  unfold useBiometricAuth.removeStoredCredentials. unfold_js. cbn.
  destruct (resetGenericPasswordResult (device w)) as [[|]|e]; cbn.
  - eexists _, _, [_]. repeat split. cbn. now rewrite <- List.app_assoc.
  - eexists _, _, []. repeat split.
  - destruct e as [| | m | [m|] str]; cbn; eexists _, _, []; repeat split.
Qed.

Lemma clearAllAppData_step (w : World) :
  exists w' t,
    UserPreferences.clearAllAppData w = (Returns tt, w')
    /\ user w' = user w
    /\ trace w' = trace w ++ AsyncStorage_getAllKeys :: t.
Proof.
  unfold UserPreferences.clearAllAppData, AsyncStorage.getAllKeys,
    AsyncStorage.multiRemove, tryCatch, bind, ret, emit.
  cbn [device with_trace trace].
  destruct (getAllKeysFault (device w)) as [e|].
  - eexists _, []. repeat split.
  - set (allKeys := elements (dom (asyncStorage (with_trace _ w)))).
    destruct (0 <? length allKeys)%nat.
    + cbn [device with_trace trace].
      destruct (multiRemoveFault (device w)) as [e|].
      * eexists _, [_]. repeat split. cbn. now rewrite <- List.app_assoc.
      * eexists _, [_]. repeat split. cbn. now rewrite <- List.app_assoc.
    + eexists _, []. repeat split.
Qed.

Lemma checkStoredCredentials_step (w : World) :
  exists w' b,
    useBiometricAuth.checkStoredCredentials w = (Returns tt, w')
    /\ user w' = user w
    /\ trace w' = trace w ++ [Keychain_hasGenericPassword;
                              React (setHasStoredCredentials b)].
Proof.
  unfold useBiometricAuth.checkStoredCredentials. unfold_js. cbn.
  destruct (hasGenericPasswordFault (device w)) as [e|]; cbn;
    eexists _, _; repeat split; cbn; now rewrite <- !List.app_assoc.
Qed.

(** C7: [logout], with the functions the hook provides, returns normally
    whatever the device does (the removal rejected, the preference storage
    failing, the existence check failing), and leaves no user.  The first
    thing it does is [setUser(null)]; the removal from the keychain, the
    clearing of the preferences and the refresh of the stored-credentials
    state follow in that order. *)
Theorem logout_always_completes (s : HookState.t) (w : World) :
  exists w' t1 t2 t3,
    logout (useBiometricAuth.useBiometricAuth s) w = (Returns tt, w')
    /\ user w' = None
    /\ isAuthenticated w' = false
    /\ trace w' = trace w
                  ++ [React (setUser None)]
                  ++ Keychain_resetGenericPassword :: t1
                  ++ AsyncStorage_getAllKeys :: t2
                  ++ Keychain_hasGenericPassword :: t3.
Proof.
  unfold logout.
  cbn [UseBiometricAuthReturn.removeStoredCredentials
       UseBiometricAuthReturn.checkStoredCredentials useBiometricAuth.useBiometricAuth].
  unfold tryCatch at 1. unfold bind. rewrite update_setUser.
  set (w0 := with_user None _).
  destruct (hook_remove_step w0) as (r & w1 & t1 & H1 & U1 & T1). rewrite H1.
  destruct (clearAllAppData_step w1) as (w2 & t2 & H2 & U2 & T2). rewrite H2.
  destruct (checkStoredCredentials_step w2) as (w3 & b & H3 & U3 & T3). rewrite H3.
  exists w3, t1, t2, [React (setHasStoredCredentials b)].
  assert (U : user w3 = None) by (rewrite U3, U2, U1; reflexivity).
  split; [reflexivity |]. split; [exact U |].
  split; [unfold isAuthenticated; now rewrite U |].
  rewrite T3, T2, T1. subst w0. cbn [trace with_user with_trace].
  cbn [app]. now rewrite <- !List.app_assoc.
Qed.

(** The same for any functions in place of those of the hook, throwing or
    not, as long as they leave the user of the provider alone: when one
    throws, the [catch] clause clears the user again and the exception stops
    there. *)
Lemma logout_completes_whatever_throws (hook : UseBiometricAuthReturn.t) (w : World) :
  (forall w1, user (snd (UseBiometricAuthReturn.removeStoredCredentials hook w1)) = user w1) ->
  (forall w1, user (snd (UseBiometricAuthReturn.checkStoredCredentials hook w1)) = user w1) ->
  exists w', logout hook w = (Returns tt, w') /\ user w' = None.
Proof.
  intros Hr Hc. unfold logout, tryCatch at 1. unfold bind. rewrite update_setUser.
  set (w0 := with_user None _).
  specialize (Hr w0).
  destruct (UseBiometricAuthReturn.removeStoredCredentials hook w0) as [[r | e] w1];
    cbn [snd] in Hr.
  - destruct (clearAllAppData_step w1) as (w2 & t2 & H2 & U2 & _). rewrite H2.
    specialize (Hc w2).
    destruct (UseBiometricAuthReturn.checkStoredCredentials hook w2) as [[[] | e] w3];
      cbn [snd] in Hc.
    + exists w3. split; [reflexivity |]. now rewrite Hc, U2, Hr.
    + rewrite update_setUser. eexists. split; reflexivity.
  - rewrite update_setUser. eexists. split; reflexivity.
Qed.

(** ** The biometric login of the provider *)

(** X23: [biometricLogin] with the functions of the hook.  From a render
    that saw no biometrics or no stored credentials it returns [false] and
    touches nothing: no loading flag, no prompt.  Otherwise it always
    returns, never calls [showError], leaves [isLoading = false] and the
    keychain entry as it was, and returns [true] exactly when the device
    reports biometrics, the prompt is passed and the stored pair is the one
    of MOCK_CREDENTIALS; then the session is that of "admin".  In every
    other case (a cancelled or failed prompt, no entry, another pair stored)
    it returns [false] and the user is who it was. *)
Theorem biometricLogin_outcomes (s : HookState.t) (w : World) :
  (HookState.isAvailable s = false \/ HookState.hasStoredCredentials s = false ->
   forall showError,
     biometricLogin (useBiometricAuth.useBiometricAuth s) showError w = (Returns false, w))
  /\ (HookState.isAvailable s = true -> HookState.hasStoredCredentials s = true ->
      exists (b : bool) (w' : World),
        (forall showError,
           biometricLogin (useBiometricAuth.useBiometricAuth s) showError w
           = (Returns b, w'))
        /\ isLoading w' = false
        /\ keychain w' = keychain w
        /\ (b = true <->
            (exists t, supportedBiometryType (device w) = Returns (Some t))
            /\ getGenericPasswordFault (device w) = None
            /\ keychain w = Some MOCK_CREDENTIALS)
        /\ (b = true ->
            user w' = Some {| User.id := "1"; User.username := "admin";
                              User.email := "admin@example.com" |})
        /\ (b = false -> user w' = user w)).
Proof.
  unfold biometricLogin.
  cbn [UseBiometricAuthReturn.isAvailable UseBiometricAuthReturn.hasStoredCredentials
       UseBiometricAuthReturn.authenticateWithBiometrics useBiometricAuth.useBiometricAuth].
  split.
  { intros [-> | ->] showError; [reflexivity |]. now rewrite orb_true_r. }
  intros Ha Hh. rewrite Ha, Hh. cbn [negb orb].
  unfold useBiometricAuth.authenticateWithBiometrics. rewrite Ha, Hh. cbn [negb].
  unfold_js. cbn.
  destruct (supportedBiometryType (device w)) as [[t|]|e]; cbn.
  2,3: exists false; eexists; (split; [intros; reflexivity |]); cbn;
       repeat (split; [reflexivity |]);
       (split; [split; [discriminate | intros ([t Ht] & _); discriminate] |]);
       (split; [discriminate | reflexivity]).
  destruct (getGenericPasswordFault (device w)) as [e|]; cbn.
  { destruct e as [| | m | [m|] str]; cbn;
      try destruct (truthy m && includes m "cancel"); cbn;
      exists false; eexists; (split; [intros; reflexivity |]); cbn;
      repeat (split; [reflexivity |]);
      (split; [split; [discriminate | intros (_ & Hf & _); discriminate] |]);
      (split; [discriminate | reflexivity]). }
  destruct (keychain w) as [[u p]|] eqn:Hk; cbn.
  2: { exists false; eexists; (split; [intros; reflexivity |]); cbn; rewrite ?Hk.
       repeat (split; [reflexivity |]).
       split; [split; [discriminate | intros (_ & _ & Hf); discriminate] |].
       split; [discriminate | reflexivity]. }
  destruct (String.eqb_spec u "admin") as [-> | Hu]; cbn;
    [destruct (String.eqb_spec p "password123") as [-> | Hp]; cbn |].
  - exists true; eexists; (split; [intros; reflexivity |]); cbn; rewrite ?Hk.
    repeat (split; [reflexivity |]).
    split; [split; [intros _; repeat split; now exists t | reflexivity] |].
    split; [reflexivity | discriminate].
  - exists false; eexists; (split; [intros; reflexivity |]); cbn; rewrite ?Hk.
    repeat (split; [reflexivity |]).
    split; [split; [discriminate | intros (_ & _ & Hf); inversion Hf; contradiction] |].
    split; [discriminate | reflexivity].
  - exists false; eexists; (split; [intros; reflexivity |]); cbn; rewrite ?Hk.
    repeat (split; [reflexivity |]).
    split; [split; [discriminate | intros (_ & _ & Hf); inversion Hf; contradiction] |].
    split; [discriminate | reflexivity].
Qed.

Lemma biometricLogin_outcomes_witness :
  (forall showError,
     biometricLogin (useBiometricAuth.useBiometricAuth Sample.noCredentials) showError
       (Sample.started Sample.phone)
     = (Returns false, Sample.started Sample.phone))
  /\ exists w',
       (forall showError,
          biometricLogin (useBiometricAuth.useBiometricAuth Sample.enrolled) showError
            (with_user None (Sample.loggedIn Sample.phone))
          = (Returns true, w'))
       /\ isLoading w' = false
       /\ user w' = Some {| User.id := "1"; User.username := "admin";
                            User.email := "admin@example.com" |}.
Proof.
  split.
  - destruct (biometricLogin_outcomes Sample.noCredentials (Sample.started Sample.phone))
      as [H _].
    apply H. now right.
  - destruct (biometricLogin_outcomes Sample.enrolled
                (with_user None (Sample.loggedIn Sample.phone))) as [_ H].
    destruct (H eq_refl eq_refl) as (b & w' & Hrun & Hl & _ & Hb & Hu & _).
    assert (b = true) as ->.
    { apply Hb. repeat split. now exists FINGERPRINT. }
    exists w'. repeat split; [exact Hrun | exact Hl | now apply Hu].
Defined.

(** ** The automatic attempt of the login screen *)

Import LoginScreen.

(** The effect sets the latch and only then starts the timer: right after
    it ran, the latch is set, one more timer is pending and no call has
    been made. *)
Lemma autoAttemptEffect_latches_first (d : Deps) (s : Screen) :
  ready d = true -> autoAttemptedRef s = false ->
  autoAttemptedRef (autoAttemptEffect d s) = true
  /\ timers (autoAttemptEffect d s) = timers s ++ [(nextTimer s, handleBiometricLogin d)]
  /\ calls (autoAttemptEffect d s) = calls s.
Proof.
  unfold ready, autoAttemptEffect. intros -> ->. cbn. repeat split.
Qed.

(** Once the latch is set the effect starts nothing. *)
Lemma autoAttemptEffect_latched (d : Deps) (s : Screen) :
  autoAttemptedRef s = true ->
  autoAttemptedRef (autoAttemptEffect d s) = true
  /\ timers (autoAttemptEffect d s) = timers s
  /\ calls (autoAttemptEffect d s) = calls s.
Proof.
  unfold autoAttemptEffect. intros ->. rewrite !andb_false_r. cbn. repeat split.
Qed.

Lemma length_filter_le {A} (p : A -> bool) (l : list A) :
  length (List.filter p l) <= length l.
Proof. induction l as [|x l IH]; cbn; [lia | destruct (p x); cbn; lia]. Qed.

Lemma runCleanup_atMostOne (s : Screen) : atMostOne s -> atMostOne (runCleanup s).
Proof.
  unfold atMostOne, runCleanup. intros [H0 H1].
  destruct (effectCleanup s) as [timer|]; [| now split].
  cbn. split.
  - intros Hr. destruct (H0 Hr) as [-> ->]. now split.
  - pose proof (length_filter_le (fun t => negb (Nat.eqb (fst t) timer)) (timers s)).
    lia.
Qed.

Lemma autoAttemptEffect_atMostOne (d : Deps) (s : Screen) :
  atMostOne s -> atMostOne (autoAttemptEffect d s).
Proof.
  intros [H0 H1]. unfold atMostOne, autoAttemptEffect.
  destruct (autoAttemptedRef s) eqn:Hr.
  - rewrite !andb_false_r. cbn. split; [discriminate | exact H1].
  - destruct (H0 eq_refl) as [Ht Hc].
    destruct (isBiometricAvailable d && hasBiometricCredentials d && negb (isLoading d)
              && negb (isBiometricLoading d) && negb (biometricAttempted d)); cbn.
    + rewrite Ht, Hc. cbn. split; [discriminate | lia].
    + split; [intros _; now split | exact H1].
Qed.

Lemma step_atMostOne (s : Screen) (e : Step) : atMostOne s -> atMostOne (step s e).
Proof.
  intros H. destruct e as [d|]; cbn.
  - unfold commit. destruct (effectDeps s) as [last|].
    + destruct (sameDeps d last); [exact H |].
      now apply autoAttemptEffect_atMostOne, runCleanup_atMostOne.
    + now apply autoAttemptEffect_atMostOne.
  - destruct H as [H0 H1]. unfold atMostOne, elapse. cbn. split.
    + intros Hr. destruct (H0 Hr) as [-> ->]. now split.
    + rewrite List.length_app, List.length_map. lia.
Qed.

Lemma run_atMostOne (steps : list Step) (s : Screen) :
  atMostOne s -> atMostOne (fold_left step steps s).
Proof.
  revert s. induction steps as [|e steps IH]; intros s H; cbn; [exact H |].
  apply IH. now apply step_atMostOne.
Qed.

(** What the latch does guarantee: whatever happens during a lifetime of
    the screen, the timers of the effect call [handleBiometricLogin] at
    most once. *)
Lemma auto_attempt_at_most_once (steps : list Step) :
  length (calls (lifetime steps)) <= 1.
Proof.
  assert (H : atMostOne mounted) by (split; [now split | cbn; lia]).
  destruct (run_atMostOne steps mounted H) as [_ Hle]. unfold lifetime. lia.
Qed.

(** With no re-evaluation before the delay elapses the attempt is made. *)
Lemma auto_attempt_fires_when_undisturbed (d : Deps) :
  ready d = true ->
  calls (lifetime [Commit d; Elapse]) = [handleBiometricLogin d].
Proof.
  unfold ready, lifetime. cbn. unfold commit. cbn. unfold autoAttemptEffect. cbn.
  intros ->. reflexivity.
Qed.

(** A render with the same dependencies does not run the effect again: the
    pending timer stays. *)
Lemma auto_attempt_survives_same_deps :
  calls (lifetime [Commit (Sample.readyDeps 0); Commit (Sample.readyDeps 0);
                   Commit (Sample.readyDeps 0); Elapse]) = [0].
Proof. reflexivity. Qed.

Lemma step_lost (s : Screen) (e : Step) : lost s -> lost (step s e).
Proof.
  intros (Hr & Ht & Hc). destruct e as [d|]; cbn.
  - unfold commit. destruct (effectDeps s) as [last|].
    + destruct (sameDeps d last); [now repeat split |].
      assert (Hl : lost (runCleanup s)).
      { unfold runCleanup, lost. destruct (effectCleanup s); cbn;
          rewrite ?Ht; now repeat split. }
      destruct Hl as (Hr' & Ht' & Hc').
      destruct (autoAttemptEffect_latched d _ Hr') as (E1 & E2 & E3).
      unfold lost. now rewrite E1, E2, E3.
    + destruct (autoAttemptEffect_latched d _ Hr) as (E1 & E2 & E3).
      unfold lost. now rewrite E1, E2, E3.
  - unfold lost, elapse. cbn. rewrite Ht, Hc. now repeat split.
Qed.

Lemma run_lost (steps : list Step) (s : Screen) :
  lost s -> lost (fold_left step steps s).
Proof.
  revert s. induction steps as [|e steps IH]; intros s H; cbn; [exact H |].
  apply IH. now apply step_lost.
Qed.

(** The defect: when the effect is evaluated again before the
    delay has elapsed (a dependency differs, here or later), its cleanup
    clears the timer while the latch stays set, and no automatic attempt is
    ever made in that lifetime, whatever follows. *)
Lemma auto_attempt_lost_for_ever (d1 d2 : Deps) (rest : list Step) :
  ready d1 = true -> sameDeps d2 d1 = false ->
  calls (lifetime (Commit d1 :: Commit d2 :: rest)) = [].
Proof.
  intros H1 Hne. unfold lifetime. cbn [fold_left step]. apply run_lost.
  assert (E1 : commit d1 mounted
               = {| autoAttemptedRef := true;
                    timers := [(0, handleBiometricLogin d1)];
                    nextTimer := 1;
                    effectDeps := Some d1; effectCleanup := Some 0;
                    calls := [] |}).
  { unfold commit, autoAttemptEffect. cbn. unfold ready in H1. now rewrite H1. }
  rewrite E1. unfold commit. cbn [effectDeps]. rewrite Hne.
  destruct (autoAttemptEffect_latched d2
              (runCleanup {| autoAttemptedRef := true;
                             timers := [(0, handleBiometricLogin d1)];
                             nextTimer := 1;
                             effectDeps := Some d1; effectCleanup := Some 0;
                             calls := [] |}) eq_refl) as (E2 & E3 & E4).
  unfold lost. now rewrite E2, E3, E4.
Qed.

(** C10: the claim asks for exactly one automatic attempt under repeated
    evaluations of the effect; the code makes none.  The effect runs with
    every condition true, and runs again, conditions still true, because
    [handleBiometricLogin] is a new function, before the 500 ms have
    elapsed: the cleanup of the first run clears the timer, the latch set by
    the first run stops the second, and when the delay elapses
    [handleBiometricLogin] is not called.  The same with three
    evaluations. *)
Theorem auto_attempt_lost_on_reevaluation :
  ready (Sample.readyDeps 0) = true
  /\ ready (Sample.readyDeps 1) = true
  /\ calls (lifetime [Commit (Sample.readyDeps 0); Commit (Sample.readyDeps 1); Elapse])
     = []
  /\ autoAttemptedRef
       (lifetime [Commit (Sample.readyDeps 0); Commit (Sample.readyDeps 1); Elapse])
     = true
  /\ calls (lifetime [Commit (Sample.readyDeps 0); Commit (Sample.readyDeps 1);
                      Commit (Sample.readyDeps 2); Elapse])
     = []
  /\ calls (lifetime [Commit (Sample.readyDeps 0); Elapse]) = [0].
Proof. repeat split. Qed.

(** ** A logout on a device that works *)

Lemma lookup_foldr_delete (m : gmap string string) (l : list string) (k : string) :
  foldr delete m l !! k = if decide (k ∈ l) then None else m !! k.
Proof.
  induction l as [|a l IH]; cbn.
  - rewrite decide_False; [reflexivity | apply not_elem_of_nil].
  - destruct (decide (k = a)) as [-> | Hne].
    + rewrite lookup_delete_eq, decide_True; [reflexivity | apply elem_of_cons; now left].
    + rewrite lookup_delete_ne by congruence. rewrite IH.
      destruct (decide (k ∈ l)) as [Hin | Hnin].
      * rewrite decide_True; [reflexivity | apply elem_of_cons; now right].
      * rewrite decide_False; [reflexivity |].
        rewrite elem_of_cons. intros [? | ?]; [now apply Hne | now apply Hnin].
Qed.

(** Removing every key of the storage empties it. *)
Lemma multiRemove_allKeys (m : gmap string string) :
  foldr delete m (elements (dom m)) = ∅.
Proof.
  apply map_eq. intros k. rewrite lookup_foldr_delete, lookup_empty.
  destruct (decide (k ∈ elements (dom m))) as [Hin | Hnin]; [reflexivity |].
  destruct (m !! k) as [v|] eqn:E; [| reflexivity].
  exfalso. apply Hnin. apply elem_of_elements, elem_of_dom. now exists v.
Qed.

(** When the device rejects nothing, [clearAllAppData] leaves the
    preference storage empty. *)
Lemma clearAllAppData_clears (w : World) :
  getAllKeysFault (device w) = None -> multiRemoveFault (device w) = None ->
  asyncStorage (snd (UserPreferences.clearAllAppData w)) = ∅.
Proof.
  intros Hg Hm.
  unfold UserPreferences.clearAllAppData, AsyncStorage.getAllKeys,
    AsyncStorage.multiRemove, tryCatch, bind, ret, emit.
  cbn [device with_trace trace asyncStorage]. rewrite Hg.
  destruct (elements (dom (asyncStorage w))) as [|k keys] eqn:E.
  - cbn. apply map_eq. intros k. rewrite lookup_empty.
    destruct (asyncStorage w !! k) as [v|] eqn:Ek; [| reflexivity].
    assert (Hin : k ∈ elements (dom (asyncStorage w)))
      by (apply elem_of_elements, elem_of_dom; now exists v).
    rewrite E in Hin. now apply not_elem_of_nil in Hin.
  - cbn [length Nat.ltb Nat.leb device with_trace trace asyncStorage]. rewrite Hm.
    cbn [snd asyncStorage with_asyncStorage with_trace]. rewrite <- E.
    apply multiRemove_allKeys.
Qed.

(** A logout of the mock user on a working phone: no user, no keychain
    entry, no preferences, and the hook knows that the credentials are
    gone. *)
Example logout_on_a_working_phone :
  let w' := snd (logout (useBiometricAuth.useBiometricAuth Sample.enrolled)
                   (Sample.loggedIn Sample.phone)) in
  user w' = None /\ keychain w' = None /\ asyncStorage w' = ∅
  /\ HookState.hasStoredCredentials (bio w') = false.
Proof. vm_compute. repeat split. Qed.

(** The same on a phone where every step of the cleanup is rejected: the
    logout returns, the user is gone, the keychain entry is still there. *)
Example logout_on_a_broken_phone :
  let run := logout (useBiometricAuth.useBiometricAuth Sample.enrolled)
               (Sample.loggedIn Sample.brokenPhone) in
  fst run = Returns tt
  /\ user (snd run) = None
  /\ keychain (snd run) = Some (StoredCredentials.mk "admin" "password123").
Proof. vm_compute. repeat split. Qed.

(** A hook whose functions throw: the [catch] clause of [logout] is where
    the exception stops. *)
Lemma logout_completes_whatever_throws_witness :
  exists w',
    logout
      {| UseBiometricAuthReturn.isAvailable := true;
         UseBiometricAuthReturn.biometryType := Some FACE_ID;
         UseBiometricAuthReturn.biometricTypeDescription := "Face ID";
         UseBiometricAuthReturn.isLoading := false;
         UseBiometricAuthReturn.hasStoredCredentials := true;
         UseBiometricAuthReturn.checkCapabilities := throw (JsString "boom");
         UseBiometricAuthReturn.storeCredentials := fun _ _ => throw (JsString "boom");
         UseBiometricAuthReturn.authenticateWithBiometrics := throw (JsString "boom");
         UseBiometricAuthReturn.removeStoredCredentials := throw (JsString "boom");
         UseBiometricAuthReturn.checkStoredCredentials := throw JsNull |}
      (Sample.loggedIn Sample.phone)
    = (Returns tt, w') /\ user w' = None.
Proof.
  apply logout_completes_whatever_throws; intros w1; reflexivity.
Defined.

(** * More of the code *)

(** ** BiometricErrorHandler.ts, beyond cancellation *)

Lemma toLowerCaseChar_idempotent (c : ascii) :
  toLowerCaseChar (toLowerCaseChar c) = toLowerCaseChar c.
Proof.
  destruct c as [[] [] [] [] [] [] [] []]; reflexivity.
Qed.

Lemma toLowerCase_idempotent (s : string) : toLowerCase (toLowerCase s) = toLowerCase s.
Proof.
  induction s as [|c s IH]; cbn; [reflexivity |].
  now rewrite toLowerCaseChar_idempotent, IH.
Qed.

Lemma toLowerCase_empty (s : string) : toLowerCase s = "" -> s = "".
Proof. destruct s; [reflexivity | discriminate]. Qed.

(** The fields of [parseError] depend on the lower-cased message alone,
    the message itself apart. *)
Lemma parseError_by_lower (a b : JsValue) :
  toLowerCase (errorMessageOf a) = toLowerCase (errorMessageOf b) ->
  code (parseError a) = code (parseError b)
  /\ recoverable (parseError a) = recoverable (parseError b)
  /\ userMessage (parseError a) = userMessage (parseError b).
Proof.
  intros H. unfold parseError. rewrite H.
  set (lower := toLowerCase (errorMessageOf b)).
  repeat match goal with
         | |- context [if ?c then _ else _] => destruct c
         end; repeat split.
Qed.

(** X1: the classification does not look at the case of letters: two raw
    error strings with the same lower-cased form get the same code, the same
    recoverable flag and the same text for the user; in particular a string
    and its lower-cased form do. *)
Theorem parseError_ignores_case (a b : string) :
  toLowerCase a = toLowerCase b ->
  code (parseError (JsString a)) = code (parseError (JsString b))
  /\ recoverable (parseError (JsString a)) = recoverable (parseError (JsString b))
  /\ userMessage (parseError (JsString a)) = userMessage (parseError (JsString b)).
Proof.
  intros H. apply parseError_by_lower.
  destruct (String.eqb_spec a "") as [-> | Ha].
  - symmetry in H. apply toLowerCase_empty in H. now subst.
  - destruct (String.eqb_spec b "") as [-> | Hb].
    + apply toLowerCase_empty in H. contradiction.
    + now rewrite !errorMessageOf_string.
Qed.

Lemma parseError_ignores_case_witness :
  code (parseError (JsString "SENSOR Timeout")) = code (parseError (JsString "sensor timeout"))
  /\ recoverable (parseError (JsString "SENSOR Timeout"))
     = recoverable (parseError (JsString "sensor timeout"))
  /\ userMessage (parseError (JsString "SENSOR Timeout"))
     = userMessage (parseError (JsString "sensor timeout")).
Proof.
  apply (parseError_ignores_case "SENSOR Timeout" "sensor timeout"). reflexivity.
Defined.




(** X3: [parseError] gives one of its eight codes, and the error is not
    recoverable exactly when the code is NOT_AVAILABLE, NOT_ENROLLED or
    LOCKOUT. *)
Theorem parseError_recoverable_by_code (error : JsValue) :
  In (code (parseError error))
     ["USER_CANCELLED"; "NOT_AVAILABLE"; "NOT_ENROLLED"; "AUTH_FAILED";
      "LOCKOUT"; "HARDWARE_ERROR"; "SYSTEM_ERROR"; "UNKNOWN_ERROR"]
  /\ (recoverable (parseError error) = false <->
      In (code (parseError error)) ["NOT_AVAILABLE"; "NOT_ENROLLED"; "LOCKOUT"]).
Proof.
  destruct (parseError_refines_rules error) as (Hc & Hr & _).
  rewrite Hc, Hr.
  destruct (Spec.classify (errorMessageOf error)); cbn; split;
    try tauto; split; try discriminate; try tauto;
    intros [H | [H | [H | []]]]; discriminate H.
Qed.

(** X4: for every code but USER_CANCELLED, [showErrorDialog] shows one
    dialog whose text is the message for the user.  Its last button is the
    only one styled "cancel" and has no action; it reads "OK" when it is the
    only button and "Hủy" otherwise.  Before it come at most two buttons:
    "Dùng mật khẩu" bound to [onFallback], present exactly when a fallback
    handler is given, and "Thử lại" bound to [onRetry], present exactly when
    the error is recoverable and a retry handler is given. *)
Theorem showErrorDialog_buttons (error : BiometricError)
    (biometricType : option BIOMETRY_TYPE) (onRetry onFallback : option Callback)
    (w : World) :
  code error <> "USER_CANCELLED" ->
  exists (title : string) (init : list AlertButton),
    showErrorDialog error biometricType onRetry onFallback w
    = (Returns tt,
       with_trace
         (trace w
          ++ [Alert_alert title (userMessage error)
                (init ++ [ {| text := match init with [] => "OK" | _ => "Hủy" end;
                              onPress := None;
                              style := Some "cancel" |} ])]) w)
    /\ length init <= 2
    /\ (forall b, In b init -> style b = None /\ onPress b <> None)
    /\ ((exists b, In b init /\ text b = "Dùng mật khẩu" /\ onPress b = onFallback)
        <-> onFallback <> None)
    /\ ((exists b, In b init /\ text b = "Thử lại" /\ onPress b = onRetry)
        <-> recoverable error = true /\ onRetry <> None).
Proof.
  intros H. unfold showErrorDialog.
  destruct (String.eqb_spec (code error) "USER_CANCELLED"); [contradiction |].
  eexists _,
    (match onFallback with
     | Some _ => [ {| text := "Dùng mật khẩu"; onPress := onFallback; style := None |} ]
     | None => []
     end
     ++ match recoverable error, onRetry with
        | true, Some _ => [ {| text := "Thử lại"; onPress := onRetry; style := None |} ]
        | _, _ => []
        end).
  destruct onFallback as [f|], onRetry as [r|], (recoverable error); cbn;
    (split; [reflexivity |]);
    (split; [lia |]);
    (split; [intros b Hb; repeat (destruct Hb as [<- | Hb]; [split; [reflexivity | discriminate] |]);
             destruct Hb |]);
    split; split;
    try (intros (b & Hb & Ht & Hp);
         repeat (destruct Hb as [<- | Hb]; [try discriminate |]); try (destruct Hb);
         try discriminate; try (split; [reflexivity | discriminate]));
    try (intros ?; congruence);
    try (intros [? ?]; (discriminate || congruence));
    intros _; eexists;
    first [ split; [left; reflexivity | split; reflexivity]
          | split; [right; left; reflexivity | split; reflexivity] ].
Qed.

Lemma showErrorDialog_buttons_witness :
  exists (title : string) (init : list AlertButton),
    showErrorDialog (parseError (JsString "Too many attempts")) (Some FINGERPRINT)
      (Some 1) (Some 2) (Sample.started Sample.phone)
    = (Returns tt,
       with_trace
         (trace (Sample.started Sample.phone)
          ++ [Alert_alert title
                (userMessage (parseError (JsString "Too many attempts")))
                (init ++ [ {| text := match init with [] => "OK" | _ => "Hủy" end;
                              onPress := None;
                              style := Some "cancel" |} ])])
         (Sample.started Sample.phone))
    /\ length init <= 2
    /\ (forall b, In b init -> style b = None /\ onPress b <> None)
    /\ ((exists b, In b init /\ text b = "Dùng mật khẩu" /\ onPress b = Some 2)
        <-> Some 2 <> None)
    /\ ((exists b, In b init /\ text b = "Thử lại" /\ onPress b = Some 1)
        <-> recoverable (parseError (JsString "Too many attempts")) = true
            /\ Some 1 <> None).
Proof.
  apply (showErrorDialog_buttons (parseError (JsString "Too many attempts"))).
  vm_compute. discriminate.
Defined.

(** ** BiometricAuthService.ts, the other paths *)

(** X5: [hasStoredCredentials] never throws and never prompts: it makes one
    call, the existence check, leaves the keychain entry as it is, and
    answers [true] exactly when an entry exists and the check is not
    rejected. *)
Theorem hasStoredCredentials_never_throws (w : World) :
  exists b : bool,
    BiometricAuthService.hasStoredCredentials w
    = (Returns b, with_trace (trace w ++ [Keychain_hasGenericPassword]) w)
    /\ (b = true <-> keychain w <> None /\ hasGenericPasswordFault (device w) = None).
Proof.
  unfold_js. cbn.
  destruct (hasGenericPasswordFault (device w)) as [e|]; cbn.
  - exists false. split; [reflexivity |]. split; [discriminate | intros [_ H]; discriminate].
  - destruct (keychain w) as [c|]; eexists; (split; [reflexivity |]); split;
      try discriminate; try (intros [H _]; congruence); intros _; split; [discriminate | reflexivity].
Qed.

(** X6: [getStoredCredentials] on a device whose probe reports no
    biometrics fails with an error text after the probe alone: the keychain
    is not read, so no prompt is shown. *)
Theorem getStoredCredentials_guard (w : World) (c : BiometricCapabilities.t) (w1 : World) :
  BiometricAuthService.getBiometricCapabilities w = (Returns c, w1) ->
  BiometricCapabilities.isAvailable c = false ->
  BiometricAuthService.getStoredCredentials w
  = (Returns (BiometricAuthService.failure "Biometric authentication is not available"), w1)
  /\ countCalls isGetGenericPassword (trace w1) = countCalls isGetGenericPassword (trace w).
Proof.
  intros Hp Hc.
  destruct (getBiometricCapabilities_returns w) as (c' & Heq).
  rewrite Heq in Hp. injection Hp as -> <-.
  unfold BiometricAuthService.getStoredCredentials.
  unfold tryCatch at 1. unfold bind at 1. rewrite Heq, Hc. cbn.
  split; [reflexivity |].
  unfold countCalls. rewrite List.filter_app, List.length_app. cbn. lia.
Qed.

Lemma getStoredCredentials_guard_witness :
  exists w1,
    BiometricAuthService.getStoredCredentials (Sample.loggedIn Sample.plainPhone)
    = (Returns (BiometricAuthService.failure "Biometric authentication is not available"), w1)
    /\ countCalls isGetGenericPassword (trace w1) = 0.
Proof.
  eexists. eapply (getStoredCredentials_guard (Sample.loggedIn Sample.plainPhone));
    reflexivity.
Defined.

(** X7: when the prompt of [getStoredCredentials] is rejected with an error
    whose message is [m], the result is the cancelled one exactly when [m]
    contains "cancel" as written, in lower case; any other message gives a
    failure that quotes it.  The same holds for a rejected write in
    [storeCredentials]. *)
Theorem rejection_is_cancelled_by_message (w : World) (t : BIOMETRY_TYPE)
    (m str username password : string) :
  supportedBiometryType (device w) = Returns (Some t) ->
  m <> "" ->
  (getGenericPasswordFault (device w) = Some (JsObject (Some m) str) ->
   fst (BiometricAuthService.getStoredCredentials w)
   = Returns (if includes m "cancel" then BiometricAuthService.cancelledResult
              else BiometricAuthService.failure ("Failed to retrieve credentials: " +:+ m)))
  /\ (setGenericPasswordFault (device w) = Some (JsObject (Some m) str) ->
      fst (BiometricAuthService.storeCredentials username password w)
      = Returns (if includes m "cancel" then BiometricAuthService.cancelledResult
                 else BiometricAuthService.failure ("Failed to store credentials: " +:+ m))).
Proof.
  intros Hd Hm.
  assert (Ht : truthy m = true).
  { unfold truthy. destruct (String.eqb_spec m ""); [contradiction | reflexivity]. }
  split; intros Hf; unfold_js; cbn; rewrite Hd; cbn; rewrite Hf; cbn; rewrite Ht; cbn;
    destruct (includes m "cancel"); cbn; unfold orString; now rewrite ?Ht.
Qed.

Lemma rejection_is_cancelled_by_message_witness :
  fst (BiometricAuthService.getStoredCredentials (Sample.loggedIn Sample.brokenPhone))
  = Returns BiometricAuthService.cancelledResult
  /\ fst (BiometricAuthService.storeCredentials "admin" "password123"
            (Sample.loggedIn Sample.brokenPhone))
     = Returns (BiometricAuthService.failure "Failed to store credentials: storage full").
Proof.
  split.
  - apply (rejection_is_cancelled_by_message (Sample.loggedIn Sample.brokenPhone) FACE_ID
             "User canceled the operation" "Error: User canceled the operation" "" "");
      [reflexivity | discriminate | reflexivity].
  - apply (rejection_is_cancelled_by_message (Sample.loggedIn Sample.brokenPhone) FACE_ID
             "storage full" "Error: storage full" "admin" "password123");
      [reflexivity | discriminate | reflexivity].
Defined.

(** X8: the service and the classifier do not agree on what a cancellation
    is.  A rejected prompt whose message contains "cancel" only with other
    letter case (so not as written) comes back from [getStoredCredentials]
    as a plain failure, not flagged cancelled, while [parseError] classifies
    the same error USER_CANCELLED. *)
Theorem cancellation_case_mismatch (w : World) (t : BIOMETRY_TYPE) (m str : string) :
  supportedBiometryType (device w) = Returns (Some t) ->
  getGenericPasswordFault (device w) = Some (JsObject (Some m) str) ->
  includes m "cancel" = false ->
  includes (toLowerCase m) "cancel" = true ->
  (exists r,
     fst (BiometricAuthService.getStoredCredentials w) = Returns r
     /\ BiometricAuthResult.success r = false
     /\ BiometricAuthResult.cancelled r = None
     /\ BiometricAuthResult.error r = Some ("Failed to retrieve credentials: " +:+ m))
  /\ code (parseError (JsObject (Some m) str)) = "USER_CANCELLED".
Proof.
  intros Hd Hf Hraw Hlow.
  assert (Hm : m <> "") by (apply toLowerCase_nonempty; now apply (includes_nonempty _ "cancel")).
  assert (Ht : truthy m = true).
  { unfold truthy. destruct (String.eqb_spec m ""); [contradiction | reflexivity]. }
  split.
  - unfold_js. cbn. rewrite Hd. cbn. rewrite Hf. cbn. rewrite Ht, Hraw. cbn.
    eexists. repeat split.
  - apply parseError_cancel. unfold errorMessageOf, optMessage, orString at 1.
    now rewrite Ht.
Qed.

Lemma cancellation_case_mismatch_witness :
  let w :=
    with_keychain (Some (StoredCredentials.mk "admin" "password123"))
      (Sample.started
         {| supportedBiometryType := Returns (Some FINGERPRINT);
            setGenericPasswordFault := None;
            getGenericPasswordFault := Some (JsObject (Some "Cancel") "Error: Cancel");
            hasGenericPasswordFault := None;
            resetGenericPasswordResult := Returns true;
            getAllKeysFault := None;
            multiRemoveFault := None |}) in
  (exists r,
     fst (BiometricAuthService.getStoredCredentials w) = Returns r
     /\ BiometricAuthResult.success r = false
     /\ BiometricAuthResult.cancelled r = None
     /\ BiometricAuthResult.error r = Some "Failed to retrieve credentials: Cancel")
  /\ code (parseError (JsObject (Some "Cancel") "Error: Cancel")) = "USER_CANCELLED".
Proof.
  intros w.
  apply (cancellation_case_mismatch w FINGERPRINT "Cancel" "Error: Cancel"); reflexivity.
Defined.

(** X9: after [removeStoredCredentials] has returned a success the keychain
    entry is gone: in any world with that keychain, the existence check
    answers [false], and a retrieval whose prompt is passed fails with "No
    stored credentials found". *)
Theorem remove_then_nothing_stored (w w1 w2 : World) (r : BiometricAuthResult.t)
    (t : BIOMETRY_TYPE) :
  BiometricAuthService.removeStoredCredentials w = (Returns r, w1) ->
  BiometricAuthResult.success r = true ->
  keychain w2 = keychain w1 ->
  keychain w1 = None
  /\ BiometricAuthResult.error r = None
  /\ fst (BiometricAuthService.hasStoredCredentials w2) = Returns false
  /\ (supportedBiometryType (device w2) = Returns (Some t) ->
      getGenericPasswordFault (device w2) = None ->
      fst (BiometricAuthService.getStoredCredentials w2)
      = Returns (BiometricAuthService.failure "No stored credentials found")).
Proof.
  intros Hrm Hok Hk.
  assert (H1 : keychain w1 = None /\ BiometricAuthResult.error r = None).
  { revert Hrm. unfold_js. cbn.
    destruct (resetGenericPasswordResult (device w)) as [[|]|e]; cbn.
    - intros H; inversion H; subst. now split.
    - intros H; inversion H; subst. cbn in Hok. discriminate.
    - destruct e as [| | m | [m|] str]; cbn; intros H; inversion H; subst;
        cbn in Hok; discriminate. }
  destruct H1 as [Hnone Herr]. rewrite Hnone in Hk.
  repeat split; try assumption.
  - unfold_js. cbn. destruct (hasGenericPasswordFault (device w2)); cbn;
      [reflexivity | now rewrite Hk].
  - intros Hd Hg. unfold_js. cbn. rewrite Hd. cbn. now rewrite Hg, Hk.
Qed.

Lemma remove_then_nothing_stored_witness :
  let w1 := snd (BiometricAuthService.removeStoredCredentials (Sample.loggedIn Sample.phone)) in
  keychain w1 = None
  /\ fst (BiometricAuthService.hasStoredCredentials w1) = Returns false
  /\ fst (BiometricAuthService.getStoredCredentials w1)
     = Returns (BiometricAuthService.failure "No stored credentials found").
Proof.
  intros w1.
  destruct (remove_then_nothing_stored (Sample.loggedIn Sample.phone) w1 w1
              (BiometricAuthResult.mk true None None None) FINGERPRINT)
    as (H1 & _ & H2 & H3); try reflexivity.
  split; [exact H1 |]. split; [exact H2 |]. apply H3; reflexivity.
Defined.

(** ** useBiometricAuth.ts, the other callbacks *)

(** What the probe finds on a device, as the hook stores it. *)
Lemma probe_cases (w : World) :
  exists c : BiometricCapabilities.t,
    BiometricAuthService.getBiometricCapabilities w
    = (Returns c, with_trace (trace w ++ [Keychain_getSupportedBiometryType]) w)
    /\ BiometricCapabilities.isAvailable c
       = match supportedBiometryType (device w) with
         | Returns (Some _) => true
         | _ => false
         end
    /\ BiometricCapabilities.biometryType c
       = match supportedBiometryType (device w) with
         | Returns (Some t) => Some t
         | _ => None
         end.
Proof.
  unfold_js. cbn.
  destruct (supportedBiometryType (device w)) as [[t|]|e]; eexists; repeat split.
Qed.

(** What the three steps of the cleanup do to the world. *)
Lemma hook_remove_effect (w : World) :
  exists r w',
    useBiometricAuth.removeStoredCredentials w = (Returns r, w')
    /\ device w' = device w /\ asyncStorage w' = asyncStorage w /\ user w' = user w
    /\ match resetGenericPasswordResult (device w) with
       | Returns true =>
           r = BiometricAuthResult.mk true None None None
           /\ keychain w' = None
           /\ bio w' = HookState.with_hasStoredCredentials false (bio w)
           /\ trace w' = trace w ++ [Keychain_resetGenericPassword;
                                     React (setHasStoredCredentials false)]
       | _ =>
           BiometricAuthResult.success r = false
           /\ (exists text, BiometricAuthResult.error r = Some text)
           /\ keychain w' = keychain w
           /\ bio w' = bio w
           /\ trace w' = trace w ++ [Keychain_resetGenericPassword]
       end.
Proof.
  unfold useBiometricAuth.removeStoredCredentials. unfold_js. cbn.
  destruct (resetGenericPasswordResult (device w)) as [[|]|e]; cbn.
  - eexists _, _. repeat split. cbn. now rewrite <- List.app_assoc.
  - eexists _, _. repeat split. now eexists.
  - destruct e as [| | m | [m|] str]; cbn; eexists _, _; repeat split; now eexists.
Qed.

Lemma elements_dom_nil (m : gmap string string) : elements (dom m) = [] -> m = ∅.
Proof.
  intros E. apply map_eq. intros k. rewrite lookup_empty.
  destruct (m !! k) as [v|] eqn:Ek; [| reflexivity].
  assert (Hin : k ∈ elements (dom m)) by (apply elem_of_elements, elem_of_dom; now exists v).
  rewrite E in Hin. now apply not_elem_of_nil in Hin.
Qed.

Lemma clearAllAppData_effect (w : World) :
  exists w',
    UserPreferences.clearAllAppData w = (Returns tt, w')
    /\ device w' = device w /\ keychain w' = keychain w
    /\ user w' = user w /\ bio w' = bio w
    /\ (asyncStorage w' = ∅ \/ asyncStorage w' = asyncStorage w)
    /\ (getAllKeysFault (device w) = None -> multiRemoveFault (device w) = None ->
        asyncStorage w' = ∅)
    /\ (asyncStorage w = ∅ -> getAllKeysFault (device w) = None ->
        trace w' = trace w ++ [AsyncStorage_getAllKeys]).
Proof.
  unfold UserPreferences.clearAllAppData, AsyncStorage.getAllKeys,
    AsyncStorage.multiRemove, tryCatch, bind, ret, emit.
  cbn [device with_trace trace asyncStorage].
  destruct (getAllKeysFault (device w)) as [e|].
  - eexists. split; [reflexivity |]. cbn. repeat (split; [reflexivity |]).
    split; [now right |]. split; intros; discriminate.
  - destruct (elements (dom (asyncStorage w))) as [|k keys] eqn:E.
    + apply elements_dom_nil in E. cbn.
      eexists. split; [reflexivity |]. cbn. repeat (split; [reflexivity |]).
      split; [now left |]. split; intros; [assumption | reflexivity].
    + assert (Hne : asyncStorage w <> ∅).
      { intros Hm. rewrite Hm in E. now rewrite dom_empty_L, elements_empty in E. }
      cbn [length Nat.ltb Nat.leb device with_trace trace asyncStorage].
      destruct (multiRemoveFault (device w)) as [e|].
      * eexists. split; [reflexivity |]. cbn. repeat (split; [reflexivity |]).
        split; [now right |]. split; intros; [discriminate | contradiction].
      * eexists. split; [reflexivity |]. cbn [asyncStorage with_asyncStorage with_trace
                                              device keychain user bio].
        rewrite <- E, multiRemove_allKeys. repeat (split; [reflexivity |]).
        split; [now left |]. split; intros; [reflexivity | contradiction].
Qed.

Lemma checkStoredCredentials_effect (w : World) :
  exists w',
    useBiometricAuth.checkStoredCredentials w = (Returns tt, w')
    /\ device w' = device w /\ keychain w' = keychain w
    /\ asyncStorage w' = asyncStorage w /\ user w' = user w
    /\ bio w'
       = HookState.with_hasStoredCredentials
           (match hasGenericPasswordFault (device w), keychain w with
            | None, Some _ => true
            | _, _ => false
            end) (bio w).
Proof.
  unfold useBiometricAuth.checkStoredCredentials. unfold_js. cbn.
  destruct (hasGenericPasswordFault (device w)) as [e|]; cbn;
    [| destruct (keychain w) eqn:Hk]; eexists; repeat split; cbn; assumption.
Qed.

(** A successful store through the hook wrote the pair and refreshed the
    cell from a fresh existence check; a failed one left the cells alone. *)
Lemma hook_store_effect (s : HookState.t) (username password : string)
    (w w' : World) (r : BiometricAuthResult.t) :
  useBiometricAuth.storeCredentials s username password w = (Returns r, w') ->
  (BiometricAuthResult.success r = true ->
   HookState.isAvailable s = true
   /\ keychain w' = Some (StoredCredentials.mk username password)
   /\ bio w'
      = HookState.with_hasStoredCredentials
          (match hasGenericPasswordFault (device w) with None => true | Some _ => false end)
          (bio w))
  /\ (BiometricAuthResult.success r = false -> keychain w' = keychain w /\ bio w' = bio w).
Proof.
  unfold useBiometricAuth.storeCredentials.
  destruct (HookState.isAvailable s); cbn [negb].
  2: { intros H; inversion H; subst. split; [discriminate | now split]. }
  unfold_js. cbn.
  destruct (supportedBiometryType (device w)) as [[t|]|e]; cbn.
  2,3: intros H; inversion H; subst; split; [discriminate | now split].
  destruct (setGenericPasswordFault (device w)) as [e|]; cbn.
  - destruct e as [| | m | [m|] str]; cbn;
      try destruct (truthy m && includes m "cancel"); cbn;
      intros H; inversion H; subst; (split; [discriminate | now split]).
  - destruct (hasGenericPasswordFault (device w)); cbn;
      intros H; inversion H; subst; (split; [now repeat split | discriminate]).
Qed.



(** X11: the effect that initialises the hook, run from a render that is
    not initialised, always returns.  It leaves [isLoading = false] and
    [isInitialized = true]; [isAvailable] and [biometryType] are what the
    probe found ([false] and [null] when the probe was rejected);
    [hasStoredCredentials] says whether the keychain holds an entry, and is
    [false] when the existence check was rejected.  It reads no credentials
    (no prompt at start) and changes neither the keychain nor the user.
    From a render that is initialised it does nothing. *)
Theorem initialize_settles_state (s : HookState.t) (w : World) :
  (HookState.isInitialized s = false ->
   exists w',
     useBiometricAuth.initialize s w = (Returns tt, w')
     /\ bio w'
        = {| HookState.isAvailable :=
               match supportedBiometryType (device w) with
               | Returns (Some _) => true
               | _ => false
               end;
             HookState.biometryType :=
               match supportedBiometryType (device w) with
               | Returns (Some t) => Some t
               | _ => None
               end;
             HookState.isLoading := false;
             HookState.hasStoredCredentials :=
               match hasGenericPasswordFault (device w), keychain w with
               | None, Some _ => true
               | _, _ => false
               end;
             HookState.isInitialized := true |}
     /\ keychain w' = keychain w
     /\ user w' = user w
     /\ countCalls isGetGenericPassword (trace w')
        = countCalls isGetGenericPassword (trace w))
  /\ (HookState.isInitialized s = true ->
      useBiometricAuth.initialize s w = (Returns tt, w)).
Proof.
  unfold useBiometricAuth.initialize. split; intros ->; [| reflexivity].
  unfold_js. cbn.
  destruct (supportedBiometryType (device w)) as [[t|]|e]; cbn;
    (destruct (hasGenericPasswordFault (device w)) as [e'|]; cbn;
     [| destruct (keychain w) eqn:Hk; cbn]);
    eexists; (split; [reflexivity |]); cbn; rewrite ?Hk;
    (split; [reflexivity |]); (split; [reflexivity |]); (split; [reflexivity |]);
    unfold countCalls; rewrite !List.filter_app, !List.length_app; cbn; lia.
Qed.

Lemma initialize_settles_state_witness :
  exists w',
    useBiometricAuth.initialize HookState.initial (Sample.loggedIn Sample.phone)
    = (Returns tt, w')
    /\ bio w' = Sample.enrolled
    /\ keychain w' = Some (StoredCredentials.mk "admin" "password123")
    /\ countCalls isGetGenericPassword (trace w') = 0.
Proof.
  destruct (initialize_settles_state HookState.initial (Sample.loggedIn Sample.phone))
    as [H _].
  destruct (H eq_refl) as (w' & Hrun & Hb & Hk & _ & Hc).
  exists w'. repeat split; assumption.
Defined.

(** X12: [checkCapabilities], from a render that is not loading, always
    returns after one call to the keychain library, the probe.  It leaves
    [isLoading = false], sets [isAvailable] and [biometryType] to what the
    probe found, and touches neither [hasStoredCredentials] nor the keychain
    entry.  From a render that is loading it does nothing at all. *)
Theorem checkCapabilities_refreshes (s : HookState.t) (w : World) :
  (HookState.isLoading s = false ->
   exists w',
     useBiometricAuth.checkCapabilities s w = (Returns tt, w')
     /\ HookState.isLoading (bio w') = false
     /\ HookState.isAvailable (bio w')
        = match supportedBiometryType (device w) with
          | Returns (Some _) => true
          | _ => false
          end
     /\ HookState.biometryType (bio w')
        = match supportedBiometryType (device w) with
          | Returns (Some t) => Some t
          | _ => None
          end
     /\ HookState.hasStoredCredentials (bio w') = HookState.hasStoredCredentials (bio w)
     /\ HookState.isInitialized (bio w') = HookState.isInitialized (bio w)
     /\ keychain w' = keychain w
     /\ countCalls isKeychainCall (trace w') = countCalls isKeychainCall (trace w) + 1)
  /\ (HookState.isLoading s = true ->
      useBiometricAuth.checkCapabilities s w = (Returns tt, w)).
Proof.
  unfold useBiometricAuth.checkCapabilities. split; intros ->; [| reflexivity].
  unfold_js. cbn.
  destruct (supportedBiometryType (device w)) as [[t|]|e]; cbn;
    eexists; (split; [reflexivity |]); cbn;
    repeat (split; [reflexivity |]);
    unfold countCalls; rewrite !List.filter_app, !List.length_app; cbn; lia.
Qed.

Lemma checkCapabilities_refreshes_witness :
  exists w',
    useBiometricAuth.checkCapabilities Sample.enrolled (Sample.loggedIn Sample.plainPhone)
    = (Returns tt, w')
    /\ HookState.isLoading (bio w') = false
    /\ HookState.isAvailable (bio w') = false
    /\ HookState.biometryType (bio w') = None
    /\ HookState.hasStoredCredentials (bio w') = true.
Proof.
  destruct (checkCapabilities_refreshes Sample.enrolled (Sample.loggedIn Sample.plainPhone))
    as [H _].
  destruct (H eq_refl) as (w' & Hrun & H1 & H2 & H3 & H4 & _).
  exists w'. repeat split; assumption.
Defined.

(** X13: [removeStoredCredentials] of the hook needs no biometrics: it
    never probes and never prompts, its one call to the keychain is the
    reset, and it always returns.  When the reset answers [true] the result
    is a success, the entry is gone and [hasStoredCredentials] is [false];
    in every other case (the reset answers [false] or is rejected) the
    result is a failure with an error text, and the entry and the cells are
    as they were. *)
Theorem hook_remove_outcomes (w : World) :
  exists r w',
    useBiometricAuth.removeStoredCredentials w = (Returns r, w')
    /\ countCalls isKeychainCall (trace w') = countCalls isKeychainCall (trace w) + 1
    /\ (resetGenericPasswordResult (device w) = Returns true ->
        BiometricAuthResult.success r = true
        /\ BiometricAuthResult.error r = None
        /\ keychain w' = None
        /\ HookState.hasStoredCredentials (bio w') = false)
    /\ (resetGenericPasswordResult (device w) <> Returns true ->
        BiometricAuthResult.success r = false
        /\ (exists text, BiometricAuthResult.error r = Some text)
        /\ keychain w' = keychain w
        /\ bio w' = bio w).
Proof.
  destruct (hook_remove_effect w) as (r & w' & Hrun & _ & _ & _ & H).
  exists r, w'. split; [exact Hrun |].
  destruct (resetGenericPasswordResult (device w)) as [[|]|e].
  - destruct H as (-> & Hk & Hb & Ht). rewrite Ht, Hb, Hk.
    split; [unfold countCalls; rewrite List.filter_app, List.length_app; cbn; lia |].
    split; [intros _; repeat split | intros Hne; now contradiction Hne].
  - destruct H as (Hs & He & Hk & Hb & Ht). rewrite Ht.
    split; [unfold countCalls; rewrite List.filter_app, List.length_app; cbn; lia |].
    split; [discriminate | intros _; repeat split; assumption].
  - destruct H as (Hs & He & Hk & Hb & Ht). rewrite Ht.
    split; [unfold countCalls; rewrite List.filter_app, List.length_app; cbn; lia |].
    split; [discriminate | intros _; repeat split; assumption].
Qed.

Lemma hook_remove_outcomes_witness :
  (exists r w',
     useBiometricAuth.removeStoredCredentials (Sample.loggedIn Sample.plainPhone)
     = (Returns r, w')
     /\ BiometricAuthResult.success r = true /\ keychain w' = None
     /\ HookState.hasStoredCredentials (bio w') = false)
  /\ (exists r w',
        useBiometricAuth.removeStoredCredentials (Sample.loggedIn Sample.brokenPhone)
        = (Returns r, w')
        /\ BiometricAuthResult.success r = false
        /\ keychain w' = Some (StoredCredentials.mk "admin" "password123")
        /\ bio w' = Sample.enrolled).
Proof.
  split.
  - destruct (hook_remove_outcomes (Sample.loggedIn Sample.plainPhone))
      as (r & w' & Hrun & _ & Hok & _).
    destruct (Hok eq_refl) as (H1 & _ & H2 & H3).
    exists r, w'. repeat split; assumption.
  - destruct (hook_remove_outcomes (Sample.loggedIn Sample.brokenPhone))
      as (r & w' & Hrun & _ & _ & Hko).
    destruct Hko as (H1 & _ & H2 & H3); [discriminate |].
    exists r, w'. repeat split; assumption.
Defined.



(** ** UserPreferences.ts *)

Ltac unfold_prefs :=
  unfold UserPreferences.hasBiometricPromptBeenShown,
    UserPreferences.setBiometricPromptShown,
    UserPreferences.hasBiometricPromptBeenDismissed,
    UserPreferences.setBiometricPromptDismissed,
    UserPreferences.clearBiometricPromptDismissed,
    UserPreferences.saveLastUsername, UserPreferences.getLastUsername,
    UserPreferences.clearLastUsername,
    UserPreferences.clearAll, UserPreferences.resetBiometricPreferences,
    UserPreferences.KEYS_BIOMETRIC_PROMPT_SHOWN, UserPreferences.KEYS_LAST_USERNAME,
    UserPreferences.KEYS_BIOMETRIC_PROMPT_DISMISSED,
    AsyncStorage.getItem, AsyncStorage.setItem, AsyncStorage.removeItem,
    AsyncStorage.multiRemove, tryCatch, bind, ret, emit in *.

(** X15: on a storage that serves the calls, the user name saved by
    [saveLastUsername] is the one [getLastUsername] gives back, the two
    prompt flags read as before, and after [clearLastUsername] there is no
    saved name. *)
Theorem lastUsername_round_trip (faults : AsyncStorage.ItemFaults) (username : string)
    (w : World) :
  AsyncStorage.setItemFault faults = None ->
  AsyncStorage.getItemFault faults = None ->
  AsyncStorage.removeItemFault faults = None ->
  let w1 := snd (UserPreferences.saveLastUsername faults username w) in
  fst (UserPreferences.getLastUsername faults w1) = Returns (Some username)
  /\ fst (UserPreferences.hasBiometricPromptBeenShown faults w1)
     = fst (UserPreferences.hasBiometricPromptBeenShown faults w)
  /\ fst (UserPreferences.hasBiometricPromptBeenDismissed faults w1)
     = fst (UserPreferences.hasBiometricPromptBeenDismissed faults w)
  /\ fst (UserPreferences.getLastUsername faults
            (snd (UserPreferences.clearLastUsername faults w1)))
     = Returns None.
Proof.
  intros Hs Hg Hr w1. subst w1. unfold_prefs. rewrite Hs, Hg, Hr. cbn.
  rewrite lookup_insert_eq, lookup_delete_eq.
  rewrite !lookup_insert_ne by discriminate. repeat split.
Qed.

Lemma lastUsername_round_trip_witness :
  let faults := AsyncStorage.mkItemFaults None None None in
  let w1 := snd (UserPreferences.saveLastUsername faults "admin"
                   (Sample.started Sample.phone)) in
  fst (UserPreferences.getLastUsername faults w1) = Returns (Some "admin")
  /\ fst (UserPreferences.hasBiometricPromptBeenShown faults w1)
     = fst (UserPreferences.hasBiometricPromptBeenShown faults (Sample.started Sample.phone))
  /\ fst (UserPreferences.hasBiometricPromptBeenDismissed faults w1)
     = fst (UserPreferences.hasBiometricPromptBeenDismissed faults
              (Sample.started Sample.phone))
  /\ fst (UserPreferences.getLastUsername faults
            (snd (UserPreferences.clearLastUsername faults w1)))
     = Returns None.
Proof.
  apply (lastUsername_round_trip (AsyncStorage.mkItemFaults None None None) "admin"
           (Sample.started Sample.phone)); reflexivity.
Defined.

(** X16: the two prompt flags.  On a storage that serves the calls, a flag
    reads [true] exactly when the stored value is the string "true";
    [setBiometricPromptDismissed] makes the dismissed flag read [true] and
    [clearBiometricPromptDismissed] makes it read [false], both leaving the
    shown flag as it was; [setBiometricPromptShown] makes the shown flag
    read [true] and leaves the dismissed flag as it was. *)
Theorem prompt_flags (faults : AsyncStorage.ItemFaults) (w : World) :
  AsyncStorage.setItemFault faults = None ->
  AsyncStorage.getItemFault faults = None ->
  AsyncStorage.removeItemFault faults = None ->
  (fst (UserPreferences.hasBiometricPromptBeenShown faults w) = Returns true
   <-> asyncStorage w !! "biometric_prompt_shown" = Some "true")
  /\ (fst (UserPreferences.hasBiometricPromptBeenDismissed faults w) = Returns true
      <-> asyncStorage w !! "biometric_prompt_dismissed" = Some "true")
  /\ (let w1 := snd (UserPreferences.setBiometricPromptDismissed faults w) in
      fst (UserPreferences.hasBiometricPromptBeenDismissed faults w1) = Returns true
      /\ fst (UserPreferences.hasBiometricPromptBeenShown faults w1)
         = fst (UserPreferences.hasBiometricPromptBeenShown faults w))
  /\ (let w1 := snd (UserPreferences.clearBiometricPromptDismissed faults w) in
      fst (UserPreferences.hasBiometricPromptBeenDismissed faults w1) = Returns false
      /\ fst (UserPreferences.hasBiometricPromptBeenShown faults w1)
         = fst (UserPreferences.hasBiometricPromptBeenShown faults w))
  /\ (let w1 := snd (UserPreferences.setBiometricPromptShown faults w) in
      fst (UserPreferences.hasBiometricPromptBeenShown faults w1) = Returns true
      /\ fst (UserPreferences.hasBiometricPromptBeenDismissed faults w1)
         = fst (UserPreferences.hasBiometricPromptBeenDismissed faults w)).
Proof.
  intros Hs Hg Hr. unfold_prefs. rewrite Hs, Hg, Hr. cbn.
  rewrite !lookup_insert_eq, !lookup_delete_eq.
  rewrite !lookup_insert_ne, !lookup_delete_ne by discriminate.
  split; [| split; [| repeat split]].
  - destruct (asyncStorage w !! "biometric_prompt_shown") as [v|]; cbn.
    + destruct (String.eqb_spec v "true"); split; congruence.
    + split; discriminate.
  - destruct (asyncStorage w !! "biometric_prompt_dismissed") as [v|]; cbn.
    + destruct (String.eqb_spec v "true"); split; congruence.
    + split; discriminate.
Qed.

Lemma prompt_flags_witness :
  let faults := AsyncStorage.mkItemFaults None None None in
  let w := Sample.loggedIn Sample.phone in
  fst (UserPreferences.hasBiometricPromptBeenShown faults w) = Returns true
  /\ fst (UserPreferences.hasBiometricPromptBeenDismissed faults w) = Returns false
  /\ fst (UserPreferences.hasBiometricPromptBeenDismissed faults
            (snd (UserPreferences.setBiometricPromptDismissed faults w))) = Returns true.
Proof.
  intros faults w.
  destruct (prompt_flags faults w eq_refl eq_refl eq_refl) as (H1 & _ & (H3 & _) & _).
  split; [apply H1; reflexivity |]. split; [reflexivity | exact H3].
Defined.



(** X18: when the storage serves the removal, [clearAll] removes the three
    keys of the preferences and [resetBiometricPreferences] the two prompt
    flags, and every other key keeps its value: in particular the saved user
    name survives [resetBiometricPreferences]. *)
Theorem clearAll_removes_its_keys (w : World) (k : string) :
  multiRemoveFault (device w) = None ->
  asyncStorage (snd (UserPreferences.clearAll w)) !! k
  = (if decide (k ∈ ["biometric_prompt_shown"; "last_username";
                     "biometric_prompt_dismissed"])
     then None else asyncStorage w !! k)
  /\ asyncStorage (snd (UserPreferences.resetBiometricPreferences w)) !! k
     = (if decide (k ∈ ["biometric_prompt_shown"; "biometric_prompt_dismissed"])
        then None else asyncStorage w !! k)
  /\ asyncStorage (snd (UserPreferences.resetBiometricPreferences w)) !! "last_username"
     = asyncStorage w !! "last_username".
Proof.
  intros Hm. unfold_prefs. cbn [device with_trace trace asyncStorage]. rewrite Hm.
  cbn [snd asyncStorage with_asyncStorage with_trace].
  rewrite !lookup_foldr_delete. repeat split.
Qed.

Lemma clearAll_removes_its_keys_witness :
  asyncStorage (snd (UserPreferences.clearAll (Sample.loggedIn Sample.phone)))
    !! "last_username" = None
  /\ asyncStorage (snd (UserPreferences.resetBiometricPreferences
                          (Sample.loggedIn Sample.phone))) !! "last_username"
     = Some "admin".
Proof.
  destruct (clearAll_removes_its_keys (Sample.loggedIn Sample.phone) "last_username" eq_refl)
    as (H1 & _ & H3).
  split; [exact H1 | exact H3].
Defined.


(** ** LoginScreen.tsx: more on the automatic attempt, and the enrolment *)

(** X20: all along a lifetime of the login screen, whatever the renders
    and the delays, pending timers and calls made by timers count at most
    one together, and none exists while the latch is not set: the effect
    never has two attempts on the way, and never calls
    [handleBiometricLogin] twice. *)
Theorem auto_attempt_never_doubles (steps : list Step) :
  length (timers (lifetime steps)) + length (calls (lifetime steps)) <= 1
  /\ (autoAttemptedRef (lifetime steps) = false ->
      timers (lifetime steps) = [] /\ calls (lifetime steps) = []).
Proof.
  assert (H : atMostOne mounted) by (split; [now split | cbn; lia]).
  destruct (run_atMostOne steps mounted H) as [H0 H1].
  split; [exact H1 | exact H0].
Qed.


Lemma run_not_ready (steps : list Step) (s : Screen) :
  (forall d, In (Commit d) steps -> ready d = false) ->
  autoAttemptedRef s = false -> timers s = [] -> calls s = [] ->
  autoAttemptedRef (fold_left step steps s) = false
  /\ timers (fold_left step steps s) = []
  /\ calls (fold_left step steps s) = [].
Proof.
  revert s. induction steps as [|e steps IH]; intros s Hn Hr Ht Hc; cbn;
    [now repeat split |].
  assert (Hn' : forall d, In (Commit d) steps -> ready d = false)
    by (intros d Hd; apply Hn; now right).
  destruct e as [d|]; cbn.
  - assert (Hd : ready d = false) by (apply Hn; now left).
    assert (He : forall s0, autoAttemptedRef s0 = false -> timers s0 = [] -> calls s0 = [] ->
                 autoAttemptedRef (autoAttemptEffect d s0) = false
                 /\ timers (autoAttemptEffect d s0) = []
                 /\ calls (autoAttemptEffect d s0) = []).
    { intros s0 H1 H2 H3. unfold autoAttemptEffect. unfold ready in Hd.
      rewrite Hd. cbn. now repeat split. }
    unfold commit. destruct (effectDeps s) as [last|].
    + destruct (sameDeps d last); [now apply IH |].
      assert (Hcl : autoAttemptedRef (runCleanup s) = false
                    /\ timers (runCleanup s) = [] /\ calls (runCleanup s) = []).
      { unfold runCleanup. destruct (effectCleanup s); cbn; rewrite ?Ht; now repeat split. }
      destruct Hcl as (C1 & C2 & C3).
      destruct (He _ C1 C2 C3) as (E1 & E2 & E3). now apply IH.
    + destruct (He _ Hr Ht Hc) as (E1 & E2 & E3). now apply IH.
  - apply IH; [exact Hn' | exact Hr | reflexivity |]. cbn. now rewrite Hc, Ht.
Qed.

(** X21: no automatic attempt is made unless a render is ready for it: in
    a lifetime where every committed render misses one of the conditions
    (biometrics available, credentials stored, not loading, biometrics not
    loading, no attempt yet), [handleBiometricLogin] is never called by the
    effect, no timer is started and the latch stays unset. *)
Theorem auto_attempt_needs_a_ready_render (steps : list Step) :
  (forall d, In (Commit d) steps -> ready d = false) ->
  calls (lifetime steps) = []
  /\ timers (lifetime steps) = []
  /\ autoAttemptedRef (lifetime steps) = false.
Proof.
  intros H. destruct (run_not_ready steps mounted H eq_refl eq_refl eq_refl) as (H1 & H2 & H3).
  now repeat split.
Qed.

Lemma auto_attempt_needs_a_ready_render_witness :
  let loading :=
    {| isBiometricAvailable := true; hasBiometricCredentials := true;
       isLoading := false; isBiometricLoading := true;
       biometricAttempted := false; handleBiometricLogin := 0 |} in
  let unavailable :=
    {| isBiometricAvailable := false; hasBiometricCredentials := true;
       isLoading := false; isBiometricLoading := false;
       biometricAttempted := false; handleBiometricLogin := 1 |} in
  calls (lifetime [Commit loading; Elapse; Commit unavailable; Elapse]) = []
  /\ timers (lifetime [Commit loading; Elapse; Commit unavailable; Elapse]) = []
  /\ autoAttemptedRef (lifetime [Commit loading; Elapse; Commit unavailable; Elapse])
     = false.
Proof.
  intros loading unavailable.
  apply (auto_attempt_needs_a_ready_render
           [Commit loading; Elapse; Commit unavailable; Elapse]).
  intros d [H | [H | [H | [H | []]]]]; inversion H; reflexivity.
Defined.





Lemma enable_success_stores (s : HookState.t) (username password : string)
    (w w1 : World) (r : BiometricAuthResult.t) :
  enableBiometricLogin (useBiometricAuth.useBiometricAuth s) username password w
  = (Returns r, w1) ->
  BiometricAuthResult.success r = true ->
  keychain w1 = Some (StoredCredentials.mk username password).
Proof.
  unfold enableBiometricLogin.
  cbn [UseBiometricAuthReturn.isAvailable UseBiometricAuthReturn.storeCredentials
       useBiometricAuth.useBiometricAuth].
  destruct (HookState.isAvailable s) eqn:Ha; cbn [negb].
  2: { intros H; inversion H; subst. discriminate. }
  destruct (hook_store_wellFormed s username password w) as (r0 & w0 & H0 & _).
  unfold tryCatch, bind, ret. rewrite H0. intros H; inversion H; subst.
  intros Hs. now destruct (hook_store_effect _ _ _ _ _ _ H0) as [Hok _]; destruct (Hok Hs) as (_ & Hk & _).
Qed.

(** X24: which pair was enrolled decides every later biometric login.
    After [enableBiometricLogin username password] has succeeded, a
    [biometricLogin] from a render that sees biometrics and stored
    credentials, on a device that reports biometrics and whose prompt is
    passed, returns [true] when the pair is that of MOCK_CREDENTIALS and
    [false] for any other pair, although the prompt was passed. *)
Theorem enrolled_pair_decides_biometricLogin (s s' : HookState.t)
    (username password : string) (w w1 w2 : World) (r : BiometricAuthResult.t)
    (t : BIOMETRY_TYPE) (showError : string -> M unit) :
  enableBiometricLogin (useBiometricAuth.useBiometricAuth s) username password w
  = (Returns r, w1) ->
  BiometricAuthResult.success r = true ->
  HookState.isAvailable s' = true -> HookState.hasStoredCredentials s' = true ->
  keychain w2 = keychain w1 ->
  supportedBiometryType (device w2) = Returns (Some t) ->
  getGenericPasswordFault (device w2) = None ->
  fst (biometricLogin (useBiometricAuth.useBiometricAuth s') showError w2)
  = Returns (String.eqb username "admin" && String.eqb password "password123").
Proof.
  intros Hen Hok Ha Hh Hk Hd Hg.
  rewrite (enable_success_stores _ _ _ _ _ _ Hen Hok) in Hk.
  unfold biometricLogin.
  cbn [UseBiometricAuthReturn.isAvailable UseBiometricAuthReturn.hasStoredCredentials
       UseBiometricAuthReturn.authenticateWithBiometrics useBiometricAuth.useBiometricAuth].
  rewrite Ha, Hh. cbn [negb orb].
  unfold useBiometricAuth.authenticateWithBiometrics. rewrite Ha, Hh. cbn [negb].
  unfold_js. cbn. rewrite Hd. cbn. rewrite Hg, Hk. cbn.
  destruct (String.eqb username "admin" && String.eqb password "password123"); reflexivity.
Qed.

Lemma enrolled_pair_decides_biometricLogin_witness :
  fst (biometricLogin (useBiometricAuth.useBiometricAuth Sample.enrolled)
         (fun _ => ret tt)
         (snd (enableBiometricLogin (useBiometricAuth.useBiometricAuth Sample.noCredentials)
                 "bob" "hunter2!" (Sample.started Sample.phone))))
  = Returns false.
Proof.
  eapply (enrolled_pair_decides_biometricLogin Sample.noCredentials Sample.enrolled
            "bob" "hunter2!" (Sample.started Sample.phone) _ _ _ FINGERPRINT);
    reflexivity.
Defined.

(** X25: [handleEnableBiometric] never throws and shows at most one
    dialog.  When the enrolment succeeds it shows "Success" and, on a
    storage that serves the calls, the shown flag is set and the dismissed
    flag removed.  When the enrolment comes back cancelled it shows nothing
    and changes nothing.  When it comes back failed it shows "Error" with
    the error text of the result (or a default text when there is none).
    When the enrolment throws it shows "Error" with a fixed text. *)
Theorem handleEnableBiometric_outcomes (faults : AsyncStorage.ItemFaults)
    (enable : string -> string -> M BiometricAuthResult.t) (description : string)
    (username password : string) (w w1 : World) :
  (forall r,
     enable username password w = (Returns r, w1) ->
     exists w',
       handleEnableBiometric faults enable description username password w
       = (Returns tt, w')
       /\ (BiometricAuthResult.success r = true ->
           trace w' = trace w1
                      ++ [Alert_alert "Success"
                            (description +:+ " has been enabled for your account.")
                            [okButton]]
           /\ (AsyncStorage.setItemFault faults = None ->
               AsyncStorage.removeItemFault faults = None ->
               asyncStorage w'
               = <["biometric_prompt_shown" := "true"]>
                   (delete "biometric_prompt_dismissed" (asyncStorage w1))))
       /\ (BiometricAuthResult.success r = false ->
           BiometricAuthResult.cancelled r = Some true -> w' = w1)
       /\ (BiometricAuthResult.success r = false ->
           BiometricAuthResult.cancelled r <> Some true ->
           w' = with_trace
                  (trace w1
                   ++ [Alert_alert "Error"
                         (orString (BiometricAuthResult.error r)
                            "Unable to enable biometric login.")
                         [okButton]]) w1))
  /\ (forall e,
        enable username password w = (Throws e, w1) ->
        handleEnableBiometric faults enable description username password w
        = (Returns tt,
           with_trace
             (trace w1
              ++ [Alert_alert "Error"
                    "An unexpected error occurred while enabling biometric login." []])
             w1)).
Proof.
  unfold handleEnableBiometric. split.
  - intros r Hrun. unfold tryCatch at 1. unfold bind at 1. rewrite Hrun.
    destruct (BiometricAuthResult.success r) eqn:Hs.
    + unfold_prefs. unfold Alert.alert, emit.
      destruct (AsyncStorage.removeItemFault faults), (AsyncStorage.setItemFault faults);
        cbn; eexists; (split; [reflexivity |]); cbn;
        (split; [intros _; split; [reflexivity | intros; first [discriminate | reflexivity]] |]);
        split; discriminate.
    + destruct (BiometricAuthResult.cancelled r) as [[|]|]; cbn;
        eexists; (split; [reflexivity |]);
        (split; [discriminate |]);
        split; intros _ H; first [reflexivity | discriminate | now contradiction H].
  - intros e Hrun. unfold tryCatch at 1. unfold bind at 1. now rewrite Hrun.
Qed.

Lemma handleEnableBiometric_outcomes_witness :
  let enable := enableBiometricLogin (useBiometricAuth.useBiometricAuth Sample.noCredentials) in
  let w := Sample.started Sample.phone in
  let w1 := snd (enable "admin" "password123" w) in
  exists w',
    handleEnableBiometric (AsyncStorage.mkItemFaults None None None) enable "Fingerprint"
      "admin" "password123" w
    = (Returns tt, w')
    /\ trace w' = trace w1
                  ++ [Alert_alert "Success" "Fingerprint has been enabled for your account."
                        [okButton]]
    /\ asyncStorage w' !! "biometric_prompt_shown" = Some "true".
Proof.
  intros enable w w1.
  destruct (handleEnableBiometric_outcomes (AsyncStorage.mkItemFaults None None None)
              enable "Fingerprint" "admin" "password123" w w1) as [H _].
  destruct (H (BiometricAuthResult.mk true None None None) eq_refl)
    as (w' & Hrun & Hok & _).
  destruct (Hok eq_refl) as [Ht Hs].
  exists w'. split; [exact Hrun |]. split; [exact Ht |].
  rewrite (Hs eq_refl eq_refl). apply lookup_insert_eq.
Defined.

(** ** From one operation to the next *)

Lemma initialize_effect (s : HookState.t) (w : World) :
  HookState.isInitialized s = false ->
  exists w',
    useBiometricAuth.initialize s w = (Returns tt, w')
    /\ device w' = device w /\ keychain w' = keychain w
    /\ HookState.isAvailable (bio w')
       = match supportedBiometryType (device w) with
         | Returns (Some _) => true
         | _ => false
         end
    /\ HookState.hasStoredCredentials (bio w')
       = match hasGenericPasswordFault (device w), keychain w with
         | None, Some _ => true
         | _, _ => false
         end.
Proof.
  unfold useBiometricAuth.initialize. intros ->.
  unfold_js. cbn.
  destruct (supportedBiometryType (device w)) as [[t|]|e]; cbn;
    (destruct (hasGenericPasswordFault (device w)) as [e'|]; cbn;
     [| destruct (keychain w) eqn:Hk; cbn]);
    eexists; (split; [reflexivity |]); cbn; rewrite ?Hk; repeat split.
Qed.

Lemma biometricLogin_mock_pair (s : HookState.t) (w : World) (t : BIOMETRY_TYPE)
    (showError : string -> M unit) :
  HookState.isAvailable s = true -> HookState.hasStoredCredentials s = true ->
  supportedBiometryType (device w) = Returns (Some t) ->
  getGenericPasswordFault (device w) = None ->
  keychain w = Some (StoredCredentials.mk "admin" "password123") ->
  exists w',
    biometricLogin (useBiometricAuth.useBiometricAuth s) showError w = (Returns true, w')
    /\ user w' = Some {| User.id := "1"; User.username := "admin";
                         User.email := "admin@example.com" |}.
Proof.
  intros Ha Hh Hd Hg Hk. unfold biometricLogin.
  cbn [UseBiometricAuthReturn.isAvailable UseBiometricAuthReturn.hasStoredCredentials
       UseBiometricAuthReturn.authenticateWithBiometrics useBiometricAuth.useBiometricAuth].
  rewrite Ha, Hh. cbn [negb orb].
  unfold useBiometricAuth.authenticateWithBiometrics. rewrite Ha, Hh. cbn [negb].
  unfold_js. cbn. rewrite Hd. cbn. rewrite Hg, Hk. cbn.
  eexists. split; reflexivity.
Qed.

(** X26: biometric login after a restart.  Once the pair of
    MOCK_CREDENTIALS has been enrolled, start again with that keychain on a
    device that reports biometrics and serves the existence check: the hook
    initialises to [isAvailable] and [hasStoredCredentials] both [true], and
    [biometricLogin] from the render that sees these cells, the prompt being
    passed, returns [true] and opens the session of "admin". *)
Theorem biometric_login_after_restart (s : HookState.t) (w w1 w2 : World)
    (r : BiometricAuthResult.t) (t : BIOMETRY_TYPE) (showError : string -> M unit) :
  enableBiometricLogin (useBiometricAuth.useBiometricAuth s) "admin" "password123" w
  = (Returns r, w1) ->
  BiometricAuthResult.success r = true ->
  keychain w2 = keychain w1 ->
  supportedBiometryType (device w2) = Returns (Some t) ->
  hasGenericPasswordFault (device w2) = None ->
  getGenericPasswordFault (device w2) = None ->
  exists w3 w4,
    useBiometricAuth.initialize HookState.initial w2 = (Returns tt, w3)
    /\ HookState.isAvailable (bio w3) = true
    /\ HookState.hasStoredCredentials (bio w3) = true
    /\ biometricLogin (useBiometricAuth.useBiometricAuth (bio w3)) showError w3
       = (Returns true, w4)
    /\ user w4 = Some {| User.id := "1"; User.username := "admin";
                         User.email := "admin@example.com" |}.
Proof.
  intros Hen Hok Hk Hd Hh Hg.
  rewrite (enable_success_stores _ _ _ _ _ _ Hen Hok) in Hk.
  destruct (initialize_effect HookState.initial w2 eq_refl)
    as (w3 & Hinit & D3 & K3 & A3 & S3).
  rewrite Hd in A3. rewrite Hh, Hk in S3.
  destruct (biometricLogin_mock_pair (bio w3) w3 t showError A3 S3) as (w4 & Hlogin & Hu).
  - now rewrite D3.
  - now rewrite D3.
  - now rewrite K3.
  - exists w3, w4. repeat split; assumption.
Qed.

Lemma biometric_login_after_restart_witness :
  let w1 := snd (enableBiometricLogin (useBiometricAuth.useBiometricAuth Sample.noCredentials)
                   "admin" "password123" (Sample.started Sample.phone)) in
  let w2 := with_keychain (keychain w1) (Sample.started Sample.phone) in
  exists w3 w4,
    useBiometricAuth.initialize HookState.initial w2 = (Returns tt, w3)
    /\ HookState.isAvailable (bio w3) = true
    /\ HookState.hasStoredCredentials (bio w3) = true
    /\ biometricLogin (useBiometricAuth.useBiometricAuth (bio w3)) (fun _ => ret tt) w3
       = (Returns true, w4)
    /\ user w4 = Some {| User.id := "1"; User.username := "admin";
                         User.email := "admin@example.com" |}.
Proof.
  intros w1 w2.
  eapply (biometric_login_after_restart Sample.noCredentials (Sample.started Sample.phone)
            w1 w2 _ FINGERPRINT); reflexivity.
Defined.

(** X27: no biometric login after a logout that removed the credentials.
    When the reset of the keychain answers [true] during [logout], a
    [biometricLogin] from the render that sees the cells the logout left
    returns [false] at once: nobody is logged in, the keychain is not read
    and no prompt is shown. *)
Theorem no_biometric_login_after_logout (s : HookState.t) (w : World)
    (showError : string -> M unit) :
  resetGenericPasswordResult (device w) = Returns true ->
  exists w',
    logout (useBiometricAuth.useBiometricAuth s) w = (Returns tt, w')
    /\ keychain w' = None
    /\ biometricLogin (useBiometricAuth.useBiometricAuth (bio w')) showError w'
       = (Returns false, w')
    /\ user w' = None.
Proof.
  intros Hr. unfold logout.
  cbn [UseBiometricAuthReturn.removeStoredCredentials
       UseBiometricAuthReturn.checkStoredCredentials useBiometricAuth.useBiometricAuth].
  unfold tryCatch at 1. unfold bind. rewrite update_setUser.
  set (w0 := with_user None _).
  destruct (hook_remove_effect w0) as (r & w1 & H1 & D1 & _ & U1 & E1). rewrite H1.
  change (device w0) with (device w) in E1. rewrite Hr in E1.
  destruct E1 as (_ & K1 & _ & _).
  destruct (clearAllAppData_effect w1) as (w2 & H2 & D2 & K2 & U2 & _). rewrite H2.
  destruct (checkStoredCredentials_effect w2) as (w3 & H3 & _ & K3 & _ & U3 & B3).
  rewrite H3. rewrite K2, K1 in B3.
  exists w3. split; [reflexivity |].
  split; [now rewrite K3, K2, K1 |].
  split; [| now rewrite U3, U2, U1].
  unfold biometricLogin.
  cbn [UseBiometricAuthReturn.isAvailable UseBiometricAuthReturn.hasStoredCredentials
       useBiometricAuth.useBiometricAuth].
  rewrite B3.
  replace (match hasGenericPasswordFault (device w2) with
           | Some _ => false
           | None => false
           end) with false by (now destruct (hasGenericPasswordFault (device w2))).
  cbn [HookState.hasStoredCredentials HookState.with_hasStoredCredentials negb].
  now rewrite orb_true_r.
Qed.

Lemma no_biometric_login_after_logout_witness :
  exists w',
    logout (useBiometricAuth.useBiometricAuth Sample.enrolled) (Sample.loggedIn Sample.phone)
    = (Returns tt, w')
    /\ keychain w' = None
    /\ biometricLogin (useBiometricAuth.useBiometricAuth (bio w')) (fun _ => ret tt) w'
       = (Returns false, w')
    /\ user w' = None.
Proof.
  apply (no_biometric_login_after_logout Sample.enrolled (Sample.loggedIn Sample.phone)).
  reflexivity.
Defined.

(** X28: a retrieval is read-only and prompts once.  On a device that
    reports biometrics, every call of [getStoredCredentials] reads the
    keychain exactly once (nothing is kept from an earlier retrieval), and
    whatever comes of it (credentials, no entry, a cancelled or failed
    prompt, even the exception on a rejection with [null]) the keychain
    entry is what it was. *)
Theorem getStoredCredentials_prompts_once (w : World) (t : BIOMETRY_TYPE) :
  supportedBiometryType (device w) = Returns (Some t) ->
  countCalls isGetGenericPassword
    (trace (snd (BiometricAuthService.getStoredCredentials w)))
  = countCalls isGetGenericPassword (trace w) + 1
  /\ keychain (snd (BiometricAuthService.getStoredCredentials w)) = keychain w
  /\ countCalls isSetGenericPassword
       (trace (snd (BiometricAuthService.getStoredCredentials w)))
     = countCalls isSetGenericPassword (trace w).
Proof.
  intros Hd. unfold_js. cbn. rewrite Hd. cbn.
  destruct (getGenericPasswordFault (device w)) as [e|]; cbn.
  - destruct e as [| | m | [m|] str]; cbn;
      try destruct (truthy m && includes m "cancel"); cbn;
      unfold countCalls; rewrite !List.filter_app, !List.length_app; cbn;
      repeat split; lia.
  - destruct (keychain w) eqn:Hk; cbn; rewrite ?Hk;
      unfold countCalls; rewrite !List.filter_app, !List.length_app; cbn;
      repeat split; lia.
Qed.

Lemma getStoredCredentials_prompts_once_witness :
  let w1 := snd (BiometricAuthService.getStoredCredentials (Sample.loggedIn Sample.phone)) in
  countCalls isGetGenericPassword (trace w1) = 1
  /\ countCalls isGetGenericPassword
       (trace (snd (BiometricAuthService.getStoredCredentials w1))) = 2
  /\ keychain (snd (BiometricAuthService.getStoredCredentials w1))
     = Some (StoredCredentials.mk "admin" "password123").
Proof.
  intros w1.
  destruct (getStoredCredentials_prompts_once (Sample.loggedIn Sample.phone) FINGERPRINT eq_refl)
    as (H1 & _ & _).
  destruct (getStoredCredentials_prompts_once w1 FINGERPRINT eq_refl) as (H2 & H3 & _).
  split; [exact H1 |]. split; [exact H2 | exact H3].
Defined.
